(** * Todo dashboard: a shallow embedding of the front end

    The development follows the TypeScript sources of the front end:

    - [lib/types.ts]            the [Task], [TaskCreate], [TaskUpdate], [User] records;
    - [app/dashboard/page.tsx]  the dashboard state and its five handlers;
    - [components/TaskForm.tsx] the create form and its submit handler;
    - [components/TaskItem.tsx] the task row and its edit, toggle and delete handlers;
    - [lib/auth-server.ts]      base URL resolution and the authentication configuration.

    The back end is not part of these sources; module [Backend] models the
    task resource and its authorization from the specification, and serves
    as the API behind the components where a property depends on it.

    JavaScript strings are sequences of UTF-16 code units; asynchronous
    handlers are written in a state-and-exception monad in which [await] is
    sequencing and a rejected promise is a thrown value. *)

From Stdlib Require Import List NArith Bool String Ascii DecimalString Lia.
Import ListNotations.

Set Implicit Arguments.
Local Open Scope N_scope.

(* ===================================================================== *)
(** ** JavaScript strings *)
(* ===================================================================== *)

Module Js.

(** A string is its sequence of UTF-16 code units. *)
Definition JsString := list N.

(** A literal of the source, written with a Rocq string. *)
Definition lit (s : string) : JsString :=
  map N_of_ascii (list_ascii_of_string s).

(** [s.length] *)
Definition length (s : JsString) : N := N.of_nat (List.length s).

(** [a === b] on strings. *)
Fixpoint eqb (a b : JsString) : bool :=
  match a, b with
  | [], [] => true
  | x :: a', y :: b' => (x =? y) && eqb a' b'
  | _, _ => false
  end.

(** ECMAScript WhiteSpace and LineTerminator code units, the characters
    removed by [String.prototype.trim]. *)
Definition isWhiteSpace (c : N) : bool :=
  (c =? 9) || (c =? 10) || (c =? 11) || (c =? 12) || (c =? 13) ||
  (c =? 32) || (c =? 160) || (c =? 5760) ||
  ((8192 <=? c) && (c <=? 8202)) ||
  (c =? 8232) || (c =? 8233) || (c =? 8239) || (c =? 8287) ||
  (c =? 12288) || (c =? 65279).

Fixpoint trimStart (s : JsString) : JsString :=
  match s with
  | [] => []
  | c :: r => if isWhiteSpace c then trimStart r else s
  end.

Definition trimEnd (s : JsString) : JsString := rev (trimStart (rev s)).

(** [s.trim()] *)
Definition trim (s : JsString) : JsString := trimEnd (trimStart s).

(** Truthiness of a string: the empty string is falsy. *)
Definition truthy (s : JsString) : bool :=
  match s with [] => false | _ :: _ => true end.

(** Truthiness of a [string | null | undefined] value. *)
Definition truthy_opt (o : option JsString) : bool :=
  match o with Some s => truthy s | None => false end.

(** [s || null] *)
Definition or_null (s : JsString) : option JsString :=
  if truthy s then Some s else None.

(** [o || d] for [o : string | null | undefined] and a string [d]. *)
Definition or_else (o : option JsString) (d : JsString) : JsString :=
  match o with
  | Some s => if truthy s then s else d
  | None => d
  end.

(** A template literal [`${a}${b}`] is concatenation. *)
Definition concat (a b : JsString) : JsString := a ++ b.

End Js.

Abbreviation JsString := Js.JsString.

(* ===================================================================== *)
(** ** lib/types.ts *)
(* ===================================================================== *)

Definition TaskId := JsString.
Definition UserId := JsString.

Module Task.
(** [interface Task]: the task entity as returned by the API. *)
Record t := mk {
  id : TaskId;
  title : JsString;
  description : option JsString;      (* string | null *)
  completed : bool;
  created_at : JsString;
  updated_at : JsString
}.
End Task.
Abbreviation Task := Task.t.

Module TaskCreate.
(** [interface TaskCreate]; [description?: string | null] may be absent
    (outer [None]), [null] (inner [None]) or a string. *)
Record t := mk {
  title : JsString;
  description : option (option JsString)
}.
End TaskCreate.
Abbreviation TaskCreate := TaskCreate.t.

Module TaskUpdate.
(** [interface TaskUpdate]: both fields optional. *)
Record t := mk {
  title : option JsString;
  description : option (option JsString)
}.
End TaskUpdate.
Abbreviation TaskUpdate := TaskUpdate.t.

Module User.
(** [interface User] *)
Record t := mk {
  id : UserId;
  email : JsString;
  name : option JsString
}.
End User.
Abbreviation User := User.t.

(** The value of [useSession().data]: [null] while there is no session;
    [session?.user] may be missing. *)
Module Session.
Record t := mk { user : option User }.
End Session.
Abbreviation Session := Session.t.

(* ===================================================================== *)
(** ** Thrown values, promises and the handler monad *)
(* ===================================================================== *)

(** One entry of a field validation body, [{ loc, msg, type }] of
    [interface ValidationError]. *)
Module FieldError.
Record t := mk {
  loc : list JsString;
  msg : JsString;
  type : JsString
}.
End FieldError.

(** The body of an error response. [interface ApiError] has a string under
    [detail], [interface ValidationError] a list of field errors; a body may
    also lack the property. These are the shapes the API declares, and the
    values of [detail] considered here. The cast in [handleCreateTask],
    [err as { response?: { data?: { detail?: string } } }], checks nothing,
    so what the handler reads is whichever of the two the body holds. The
    HTTP status is kept next to the body. *)
Module ErrData.
Inductive value : Type :=
| Text (s : JsString)
| Items (fields : list FieldError.t).
Record t := mk { detail : option value }.

(** Truthiness: a string is truthy when it is not empty, a list always. *)
Definition truthy (v : value) : bool :=
  match v with
  | Text s => Js.truthy s
  | Items _ => true
  end.

(** [o || d] for [o] read from a body and a string [d]. *)
Definition or_text (o : option value) (d : JsString) : value :=
  match o with
  | Some v => if truthy v then v else Text d
  | None => Text d
  end.
End ErrData.

Module ErrResponse.
Record t := mk { status : N; data : option ErrData.t }.
End ErrResponse.

(** A value that is thrown or that a promise rejects with: [null] or
    [undefined]; a value with or without a [response] property (the error
    object of an HTTP client, or any other object or primitive); or the
    [TypeError] the engine raises when a property of [null] or [undefined]
    is read. *)
Module JsError.
Inductive t : Type :=
| Nullish
| mk (response : option ErrResponse.t)
| TypeError.

(** [error.response?.data?.detail], for a value that is not [null] or
    [undefined]; a [TypeError] has no [response]. *)
Definition detail (e : t) : option ErrData.value :=
  match e with
  | mk (Some r) =>
      match ErrResponse.data r with
      | Some d => ErrData.detail d
      | None => None
      end
  | _ => None
  end.
End JsError.
Abbreviation JsError := JsError.t.

(** A settled promise. *)
Inductive Settled (A : Type) : Type :=
| Resolved (a : A)
| Rejected (e : JsError).
Arguments Resolved {A} a.
Arguments Rejected {A} e.

(** How a handler ends: it returns, or it throws. *)
Inductive Outcome (A : Type) : Type :=
| Returned (a : A)
| Threw (e : JsError).
Arguments Returned {A} a.
Arguments Threw {A} e.

Module Eff.

(** A computation over a state [S]. *)
Definition M (S A : Type) : Type := S -> Outcome A * S.

Definition ret {S A} (a : A) : M S A := fun s => (Returned a, s).

Definition bind {S A B} (m : M S A) (k : A -> M S B) : M S B :=
  fun s =>
    match m s with
    | (Returned a, s') => k a s'
    | (Threw e, s') => (Threw e, s')
    end.

Definition throw {S A} (e : JsError) : M S A := fun s => (Threw e, s).

Definition modify {S} (f : S -> S) : M S unit := fun s => (Returned tt, f s).

(** [try { body } catch (err) { handler err }] *)
Definition try_catch {S A} (body : M S A) (handler : JsError -> M S A) : M S A :=
  fun s =>
    match body s with
    | (Returned a, s') => (Returned a, s')
    | (Threw e, s') => handler e s'
    end.

(** [try { body } finally { fin }]: [fin] always runs; when it completes
    normally the outcome of [body] stands. *)
Definition try_finally {S A} (body : M S A) (fin : M S unit) : M S A :=
  fun s =>
    match body s with
    | (o, s') =>
        match fin s' with
        | (Returned _, s'') => (o, s'')
        | (Threw e, s'') => (Threw e, s'')
        end
    end.

(** A computation of the parent component run from inside a child whose
    own state is the first component. *)
Definition parent {S P A} (m : M P A) : M (S * P) A :=
  fun sp =>
    match m (snd sp) with
    | (o, p') => (o, (fst sp, p'))
    end.

(** A state update of the child component. *)
Definition child {S P} (f : S -> S) : M (S * P) unit :=
  fun sp => (Returned tt, (f (fst sp), snd sp)).

End Eff.

Declare Scope eff_scope.
Delimit Scope eff_scope with eff.
Notation "x <- m ;; k" := (Eff.bind m (fun x => k))
  (at level 61, m at next level, right associativity) : eff_scope.
Notation "m ;; k" := (Eff.bind m (fun _ => k))
  (at level 61, right associativity) : eff_scope.

Local Open Scope eff_scope.
Import Eff.

(* ===================================================================== *)
(** ** lib/api-client: the interface the components call *)
(* ===================================================================== *)

(** The five operations of [taskApi] as the dashboard calls them. Each one
    is an HTTP exchange: it reads and changes the world [W] behind the
    network and settles to a value or to a rejection. *)
Class TaskApi (W : Type) : Type := {
  listTasks : UserId -> W -> Settled (list Task) * W;
  createTask : UserId -> TaskCreate -> W -> Settled Task * W;
  toggleComplete : UserId -> TaskId -> W -> Settled Task * W;
  updateTask : UserId -> TaskId -> TaskUpdate -> W -> Settled Task * W;
  deleteTask : UserId -> TaskId -> W -> Settled unit * W
}.

(** The record of one invocation of [taskApi]. *)
Inductive ApiCall : Type :=
| CallListTasks (userId : UserId)
| CallCreateTask (userId : UserId) (body : TaskCreate)
| CallToggleComplete (userId : UserId) (taskId : TaskId)
| CallUpdateTask (userId : UserId) (taskId : TaskId) (body : TaskUpdate)
| CallDeleteTask (userId : UserId) (taskId : TaskId).

(* ===================================================================== *)
(** ** app/dashboard/page.tsx *)
(* ===================================================================== *)

Module Dashboard.
(** The five [useState] cells of [DashboardPage]. *)
Record t := mk {
  tasks : list Task;
  isLoading : bool;
  error : option JsString;
  isCreating : bool;
  createError : option ErrData.value   (* typed [string | null]; see [handleCreateTask] *)
}.

(** The initial values given to [useState]. *)
Definition initial : t := mk [] true None false None.

Definition setTasks (f : list Task -> list Task) (d : t) : t :=
  mk (f (tasks d)) (isLoading d) (error d) (isCreating d) (createError d).
Definition setIsLoading (b : bool) (d : t) : t :=
  mk (tasks d) b (error d) (isCreating d) (createError d).
Definition setError (e : option JsString) (d : t) : t :=
  mk (tasks d) (isLoading d) e (isCreating d) (createError d).
Definition setIsCreating (b : bool) (d : t) : t :=
  mk (tasks d) (isLoading d) (error d) b (createError d).
Definition setCreateError (e : option ErrData.value) (d : t) : t :=
  mk (tasks d) (isLoading d) (error d) (isCreating d) e.
End Dashboard.

Module Page.
(** Everything a dashboard handler can read or change: the component state,
    the console, the calls made to [taskApi] so far and the world behind
    the network. *)
Record t (W : Type) := mk {
  dash : Dashboard.t;
  console : list (JsString * JsError);
  calls : list ApiCall;
  world : W
}.
End Page.

Section DashboardPage.

Context {W : Type} {taskApi : TaskApi W}.

(** [const { data: session } = useSession()] *)
Variable session : option Session.

Definition Handler (A : Type) : Type := M (Page.t W) A.

(** [const userId = session?.user?.id] *)
Definition userId : option UserId :=
  match session with
  | Some s =>
      match Session.user s with
      | Some u => Some (User.id u)
      | None => None
      end
  | None => None
  end.

(** [if (!userId) return], after which [userId] is a non-empty string. *)
Definition requireUserId (k : UserId -> Handler unit) : Handler unit :=
  match userId with
  | Some u => if Js.truthy u then k u else ret tt
  | None => ret tt
  end.

Definition setState (f : Dashboard.t -> Dashboard.t) : Handler unit :=
  modify (fun p =>
    Page.mk (f (Page.dash p)) (Page.console p) (Page.calls p) (Page.world p)).

(** [console.error(msg, err)] *)
Definition console_error (msg : JsString) (err : JsError) : Handler unit :=
  modify (fun p =>
    Page.mk (Page.dash p) (Page.console p ++ [(msg, err)]) (Page.calls p)
            (Page.world p)).

(** [await taskApi.op(...)]: the call is recorded, the world moves, and a
    rejection is thrown at the [await]. *)
Definition await {A} (c : ApiCall) (op : W -> Settled A * W) : Handler A :=
  fun p =>
    let (r, w') := op (Page.world p) in
    let p' := Page.mk (Page.dash p) (Page.console p) (Page.calls p ++ [c]) w' in
    match r with
    | Resolved a => (Returned a, p')
    | Rejected e => (Threw e, p')
    end.

(** [fetchTasks] *)
Definition fetchTasks : Handler unit :=
  requireUserId (fun userId =>
    setState (Dashboard.setIsLoading true) ;;
    setState (Dashboard.setError None) ;;
    try_finally
      (try_catch
         (fetchedTasks <- await (CallListTasks userId) (listTasks userId) ;;
          setState (Dashboard.setTasks (fun _ => fetchedTasks)))
         (fun err =>
            console_error (Js.lit "Failed to fetch tasks:") err ;;
            setState (Dashboard.setError
                        (Some (Js.lit "Failed to load tasks. Please try again.")))))
      (setState (Dashboard.setIsLoading false))).

(** [error.response?.data?.detail] in a catch block: reading [response]
    of [null] or [undefined] raises a [TypeError]; the optional chaining
    covers only what follows. *)
Definition readDetail (err : JsError) : Handler (option ErrData.value) :=
  match err with
  | JsError.Nullish => throw JsError.TypeError
  | _ => ret (JsError.detail err)
  end.

(** [handleCreateTask]. What [||] keeps of the detail goes into
    [createError] as it is, a string or a list. *)
Definition handleCreateTask (title : JsString) (description : option JsString)
  : Handler unit :=
  requireUserId (fun userId =>
    setState (Dashboard.setIsCreating true) ;;
    setState (Dashboard.setCreateError None) ;;
    try_finally
      (try_catch
         (newTask <- await (CallCreateTask userId
                              (TaskCreate.mk title (Some description)))
                           (createTask userId
                              (TaskCreate.mk title (Some description))) ;;
          setState (Dashboard.setTasks (fun prev => newTask :: prev)))
         (fun err =>
            console_error (Js.lit "Failed to create task:") err ;;
            detail <- readDetail err ;;
            setState (Dashboard.setCreateError
                        (Some (ErrData.or_text detail
                                               (Js.lit "Failed to create task")))) ;;
            throw err))
      (setState (Dashboard.setIsCreating false))).

(** [prev.map((t) => (t.id === taskId ? updatedTask : t))] *)
Definition replaceById (taskId : TaskId) (updatedTask : Task) (prev : list Task)
  : list Task :=
  map (fun t => if Js.eqb (Task.id t) taskId then updatedTask else t) prev.

(** [prev.filter((t) => t.id !== taskId)] *)
Definition removeById (taskId : TaskId) (prev : list Task) : list Task :=
  filter (fun t => negb (Js.eqb (Task.id t) taskId)) prev.

(** [handleToggleComplete] *)
Definition handleToggleComplete (taskId : TaskId) : Handler unit :=
  requireUserId (fun userId =>
    try_catch
      (updatedTask <- await (CallToggleComplete userId taskId)
                            (toggleComplete userId taskId) ;;
       setState (Dashboard.setTasks (replaceById taskId updatedTask)))
      (fun err =>
         console_error (Js.lit "Failed to toggle task:") err ;;
         setState (Dashboard.setError
                     (Some (Js.lit "Failed to update task. Please try again."))))).

(** [handleUpdateTask] *)
Definition handleUpdateTask (taskId : TaskId) (title : JsString)
    (description : option JsString) : Handler unit :=
  requireUserId (fun userId =>
    try_catch
      (updatedTask <- await (CallUpdateTask userId taskId
                               (TaskUpdate.mk (Some title) (Some description)))
                            (updateTask userId taskId
                               (TaskUpdate.mk (Some title) (Some description))) ;;
       setState (Dashboard.setTasks (replaceById taskId updatedTask)))
      (fun err =>
         console_error (Js.lit "Failed to update task:") err ;;
         setState (Dashboard.setError
                     (Some (Js.lit "Failed to update task. Please try again."))) ;;
         throw err)).

(** [handleDeleteTask] *)
Definition handleDeleteTask (taskId : TaskId) : Handler unit :=
  requireUserId (fun userId =>
    try_catch
      (await (CallDeleteTask userId taskId) (deleteTask userId taskId) ;;
       setState (Dashboard.setTasks (removeById taskId)))
      (fun err =>
         console_error (Js.lit "Failed to delete task:") err ;;
         setState (Dashboard.setError
                     (Some (Js.lit "Failed to delete task. Please try again."))))).

End DashboardPage.

(** The four list-mutating actions a user can trigger on the dashboard. *)
Inductive Action : Type :=
| Create (title : JsString) (description : option JsString)
| Toggle (taskId : TaskId)
| Update (taskId : TaskId) (title : JsString) (description : option JsString)
| Delete (taskId : TaskId).

(** The handler [DashboardPage] binds to each action. *)
Definition handle {W} {taskApi : TaskApi W} (session : option Session)
    (a : Action) : M (Page.t W) unit :=
  match a with
  | Create title description => handleCreateTask session title description
  | Toggle taskId => handleToggleComplete session taskId
  | Update taskId title description =>
      handleUpdateTask session taskId title description
  | Delete taskId => handleDeleteTask session taskId
  end.

(** What [TaskList] renders, by its early returns: the spinner while
    loading, else the error box, else the empty state, else the rows. *)
Inductive ListView : Type :=
| Spinner
| ErrorBox (message : JsString)
| NoTasks
| Rows (tasks : list Task).

Definition TaskList (tasks : list Task) (isLoading : bool)
    (error : option JsString) : ListView :=
  if isLoading then Spinner
  else
    match error with
    | Some (c :: message) => ErrorBox (c :: message)
    | _ =>
        match tasks with
        | [] => NoTasks
        | _ :: _ => Rows tasks
        end
    end.

(* ===================================================================== *)
(** ** components/TaskForm.tsx *)
(* ===================================================================== *)

Module TaskForm.

(** The three [useState] cells of the form. *)
Record state := mk {
  title : JsString;
  description : JsString;
  localError : option JsString
}.

Definition initial : state := mk [] [] None.

Definition setTitle (v : JsString) (s : state) : state :=
  mk v (description s) (localError s).
Definition setDescription (v : JsString) (s : state) : state :=
  mk (title s) v (localError s).
Definition setLocalError (v : option JsString) (s : state) : state :=
  mk (title s) (description s) v.

Section Component.

(** The parent's state [P] and the [onSubmit] prop. *)
Context {P : Type}.
Variable onSubmit : JsString -> option JsString -> M P unit.

(** [handleSubmit], closed over the [title] and [description] of the render
    that shows the form. [e.preventDefault()] touches neither state. *)
Definition handleSubmit (rendered : state) : M (state * P) unit :=
  child (setLocalError None) ;;
  let trimmedTitle := Js.trim (title rendered) in
  if negb (Js.truthy trimmedTitle) then
    child (setLocalError (Some (Js.lit "Title is required")))
  else if 255 <? Js.length trimmedTitle then
    child (setLocalError (Some (Js.lit "Title must be 255 characters or less")))
  else if 10000 <? Js.length (description rendered) then
    child (setLocalError
             (Some (Js.lit "Description must be 10000 characters or less")))
  else
    try_catch
      (parent (onSubmit trimmedTitle
                        (Js.or_null (Js.trim (description rendered)))) ;;
       child (setTitle []) ;;
       child (setDescription []))
      (fun _ => ret tt).

End Component.

(** [const displayError = localError || error]; the [error] prop is the
    parent's [createError]. *)
Definition displayError (s : state) (error : option ErrData.value)
  : option ErrData.value :=
  match localError s with
  | Some (c :: message) => Some (ErrData.Text (c :: message))
  | _ => error
  end.

(** What [{displayError && (<div>{displayError}</div>)}] comes to: nothing
    for a falsy value, the box with the text for a string, the box with no
    text for an empty list, and for a list of field errors no output at
    all, since React refuses plain objects as children and the render
    throws. *)
Inductive ErrorView : Type :=
| NoErrorBox
| ErrorText (message : JsString)
| RenderThrows.

Definition errorView (displayError : option ErrData.value) : ErrorView :=
  match displayError with
  | None | Some (ErrData.Text []) => NoErrorBox
  | Some (ErrData.Text (c :: message)) => ErrorText (c :: message)
  | Some (ErrData.Items []) => ErrorText []
  | Some (ErrData.Items (_ :: _)) => RenderThrows
  end.

(** The submit button's [disabled={isSubmitting || !title.trim()}]. *)
Definition submitDisabled (s : state) (isSubmitting : bool) : bool :=
  isSubmitting || negb (Js.truthy (Js.trim (title s))).

End TaskForm.

(* ===================================================================== *)
(** ** components/TaskItem.tsx *)
(* ===================================================================== *)

Module TaskItem.

(** The five [useState] cells of a row. *)
Record state := mk {
  isEditing : bool;
  editTitle : JsString;
  editDescription : JsString;
  isLoading : bool;
  isDeleting : bool
}.

(** [task.description || ""] *)
Definition descriptionOrEmpty (task : Task) : JsString :=
  match Task.description task with
  | Some d => d
  | None => []
  end.

Definition initial (task : Task) : state :=
  mk false (Task.title task) (descriptionOrEmpty task) false false.

Definition setIsEditing (v : bool) (s : state) : state :=
  mk v (editTitle s) (editDescription s) (isLoading s) (isDeleting s).
Definition setEditTitle (v : JsString) (s : state) : state :=
  mk (isEditing s) v (editDescription s) (isLoading s) (isDeleting s).
Definition setEditDescription (v : JsString) (s : state) : state :=
  mk (isEditing s) (editTitle s) v (isLoading s) (isDeleting s).
Definition setIsLoading (v : bool) (s : state) : state :=
  mk (isEditing s) (editTitle s) (editDescription s) v (isDeleting s).
Definition setIsDeleting (v : bool) (s : state) : state :=
  mk (isEditing s) (editTitle s) (editDescription s) (isLoading s) v.

Section Component.

Context {P : Type}.
Variable task : Task.
Variable onToggleComplete : TaskId -> M P unit.
Variable onDelete : TaskId -> M P unit.
Variable onUpdate : TaskId -> JsString -> option JsString -> M P unit.

(** [handleToggleComplete] *)
Definition handleToggleComplete : M (state * P) unit :=
  child (setIsLoading true) ;;
  try_finally
    (parent (onToggleComplete (Task.id task)))
    (child (setIsLoading false)).

(** [handleStartEdit] *)
Definition handleStartEdit (s : state) : state :=
  setIsEditing true
    (setEditDescription (descriptionOrEmpty task)
       (setEditTitle (Task.title task) s)).

(** [handleCancelEdit] *)
Definition handleCancelEdit (s : state) : state :=
  setEditDescription (descriptionOrEmpty task)
    (setEditTitle (Task.title task)
       (setIsEditing false s)).

(** [handleSaveEdit], closed over the [editTitle] and [editDescription] of
    the render that shows the row. *)
Definition handleSaveEdit (rendered : state) : M (state * P) unit :=
  let trimmedTitle := Js.trim (editTitle rendered) in
  if negb (Js.truthy trimmedTitle) then ret tt
  else
    child (setIsLoading true) ;;
    try_finally
      (parent (onUpdate (Task.id task) trimmedTitle
                        (Js.or_null (Js.trim (editDescription rendered)))) ;;
       child (setIsEditing false))
      (child (setIsLoading false)).

(** [handleDelete]; [confirmed] is the answer given to [confirm(...)]. *)
Definition handleDelete (confirmed : bool) : M (state * P) unit :=
  if negb confirmed then ret tt
  else
    child (setIsDeleting true) ;;
    try_finally
      (parent (onDelete (Task.id task)))
      (child (setIsDeleting false)).

End Component.

End TaskItem.

(** The components as [DashboardPage] mounts them,
    [<TaskForm onSubmit={handleCreateTask} />] and, through [TaskList],
    [<TaskItem onToggleComplete={handleToggleComplete}
               onDelete={handleDeleteTask} onUpdate={handleUpdateTask} />];
    an event runs the handler of the render that shows the current state.
    The first component of the result holds the cells of the child as the
    handler's own [setState] calls leave them; whether the child is still
    on the page afterwards is [rowMounted], and what React keeps of a row
    is [rowAfter]. *)
Definition submitCreateForm {W} {taskApi : TaskApi W} (session : option Session)
  : M (TaskForm.state * Page.t W) unit :=
  fun sp => TaskForm.handleSubmit (handleCreateTask session) (fst sp) sp.

Definition saveTaskEdit {W} {taskApi : TaskApi W} (session : option Session)
    (task : Task) : M (TaskItem.state * Page.t W) unit :=
  fun sp => TaskItem.handleSaveEdit task (handleUpdateTask session) (fst sp) sp.

Definition toggleTaskRow {W} {taskApi : TaskApi W} (session : option Session)
    (task : Task) : M (TaskItem.state * Page.t W) unit :=
  TaskItem.handleToggleComplete task (handleToggleComplete session).

Definition deleteTaskRow {W} {taskApi : TaskApi W} (session : option Session)
    (task : Task) (confirmed : bool) : M (TaskItem.state * Page.t W) unit :=
  TaskItem.handleDelete task (handleDeleteTask session) confirmed.

(** Whether [TaskList] renders the row of the task [taskId]: it renders
    rows only past its early returns, one [<TaskItem key={task.id} />] per
    task of the list. A row that is not rendered is unmounted, and React
    drops its state cells. *)
Definition rowMounted (d : Dashboard.t) (taskId : TaskId) : bool :=
  match TaskList (Dashboard.tasks d) (Dashboard.isLoading d) (Dashboard.error d) with
  | Rows tasks => existsb (fun t => Js.eqb (Task.id t) taskId) tasks
  | _ => false
  end.

(** The state of the row of [task] once an event has run on the dashboard:
    the cells as the handler left them while the row is still mounted,
    nothing once it is not. *)
Definition rowAfter {W} (task : Task) (sp : TaskItem.state * Page.t W)
  : option TaskItem.state :=
  if rowMounted (Page.dash (snd sp)) (Task.id task) then Some (fst sp) else None.

(** *** The server operation behind each action *)

(** The call an action makes for the user [userId]. *)
Definition request (userId : UserId) (a : Action) : ApiCall :=
  match a with
  | Create title description =>
      CallCreateTask userId (TaskCreate.mk title (Some description))
  | Toggle taskId => CallToggleComplete userId taskId
  | Update taskId title description =>
      CallUpdateTask userId taskId (TaskUpdate.mk (Some title) (Some description))
  | Delete taskId => CallDeleteTask userId taskId
  end.

(** How that call settles in the world [w]: with the canonical task the
    server returns (none for a delete), or with a rejection. *)
Definition perform {W} {taskApi : TaskApi W} (userId : UserId) (a : Action)
    (w : W) : Settled (option Task) * W :=
  let some (r : Settled Task * W) : Settled (option Task) * W :=
    match r with
    | (Resolved t, w') => (Resolved (Some t), w')
    | (Rejected e, w') => (Rejected e, w')
    end in
  match a with
  | Create title description =>
      some (createTask userId (TaskCreate.mk title (Some description)) w)
  | Toggle taskId => some (toggleComplete userId taskId w)
  | Update taskId title description =>
      some (updateTask userId taskId
              (TaskUpdate.mk (Some title) (Some description)) w)
  | Delete taskId =>
      match deleteTask userId taskId w with
      | (Resolved _, w') => (Resolved None, w')
      | (Rejected e, w') => (Rejected e, w')
      end
  end.

(** The actions whose handler re-throws what it caught. *)
Definition rethrows (a : Action) : bool :=
  match a with
  | Create _ _ | Update _ _ _ => true
  | Toggle _ | Delete _ => false
  end.

(** The rejections whose detail the catch block of [handleCreateTask]
    turns into a string: a value that is not [null] or [undefined], with a
    string under [detail] or with none. *)
Definition showable (e : JsError) : bool :=
  match e with
  | JsError.Nullish => false
  | _ =>
      match JsError.detail e with
      | Some (ErrData.Items _) => false
      | _ => true
      end
  end.

(** The message each handler logs with the value it caught. *)
Definition logged (a : Action) : JsString :=
  match a with
  | Create _ _ => Js.lit "Failed to create task:"
  | Toggle _ => Js.lit "Failed to toggle task:"
  | Update _ _ _ => Js.lit "Failed to update task:"
  | Delete _ => Js.lit "Failed to delete task:"
  end.

(** *** Reconciliation of the local list, stated on lists *)

(** [next] is [prev] with exactly the entries named [taskId] replaced by
    [updated], position by position. *)
Definition Replaced (taskId : TaskId) (updated : Task) (prev next : list Task)
  : Prop :=
  Forall2 (fun old new =>
             (Task.id old = taskId -> new = updated) /\
             (Task.id old <> taskId -> new = old)) prev next.

(** [next] is [prev] without the entries named [taskId], the others kept in
    their order. *)
Inductive Without (taskId : TaskId) : list Task -> list Task -> Prop :=
| Without_nil : Without taskId [] []
| Without_drop x prev next :
    Task.id x = taskId -> Without taskId prev next ->
    Without taskId (x :: prev) next
| Without_keep x prev next :
    Task.id x <> taskId -> Without taskId prev next ->
    Without taskId (x :: prev) (x :: next).

(** The local list after a successful action, given what the server
    returned. *)
Inductive Reconciled : Action -> option Task -> list Task -> list Task -> Prop :=
| Reconciled_create title description newTask prev :
    Reconciled (Create title description) (Some newTask) prev (newTask :: prev)
| Reconciled_toggle taskId updated prev next :
    Replaced taskId updated prev next ->
    Reconciled (Toggle taskId) (Some updated) prev next
| Reconciled_update taskId title description updated prev next :
    Replaced taskId updated prev next ->
    Reconciled (Update taskId title description) (Some updated) prev next
| Reconciled_delete taskId prev next :
    Without taskId prev next ->
    Reconciled (Delete taskId) None prev next.

(* ===================================================================== *)
(** ** lib/auth-server.ts *)
(* ===================================================================== *)

Module AuthServer.

(** The variables of [process.env] the module reads; an unset variable is
    [undefined]. *)
Module Env.
Record t := mk {
  NEXT_PUBLIC_APP_URL : option JsString;
  VERCEL_URL : option JsString;
  BETTER_AUTH_SECRET : option JsString;
  DATABASE_URL : option JsString;
  NEXT_PUBLIC_API_URL : option JsString
}.
End Env.

(** [getBaseUrl]: each [if (process.env.X)] tests truthiness, so a variable
    that is unset or holds the empty string falls through. *)
Definition getBaseUrl (env : Env.t) : JsString :=
  match Env.NEXT_PUBLIC_APP_URL env with
  | Some (c :: url) => c :: url
  | _ =>
      match Env.VERCEL_URL env with
      | Some (c :: host) => Js.concat (Js.lit "https://") (c :: host)
      | _ => Js.lit "http://localhost:3000"
      end
  end.

(** [new Pool({ connectionString })] *)
Record Pool := mkPool { connectionString : option JsString }.

Record EmailAndPassword := mkEmailAndPassword {
  enabled : bool;
  minPasswordLength : N
}.

Record JwtOptions := mkJwtOptions {
  expirationTime : JsString;
  issuer : JsString;
  audience : JsString
}.

Inductive Plugin : Type :=
| jwt (options : JwtOptions).

(** A trusted origin is an exact string or a regular expression, kept by
    its source text. *)
Inductive Origin : Type :=
| Exact (origin : JsString)
| Pattern (source : JsString).

Record BetterAuthOptions := mkOptions {
  secret : option JsString;
  database : Pool;
  emailAndPassword : EmailAndPassword;
  plugins : list Plugin;
  trustedOrigins : list Origin
}.

(** The options object passed to [betterAuth]; [baseUrl] is
    [getBaseUrl()], evaluated once when the module loads. *)
Definition auth (env : Env.t) : BetterAuthOptions :=
  let baseUrl := getBaseUrl env in
  mkOptions
    (Env.BETTER_AUTH_SECRET env)
    (mkPool (Env.DATABASE_URL env))
    (mkEmailAndPassword true 8)
    [ jwt (mkJwtOptions (Js.lit "7d") baseUrl baseUrl) ]
    [ Exact (Js.or_else (Env.NEXT_PUBLIC_API_URL env)
                        (Js.lit "http://localhost:8000"));
      Exact (Js.lit "http://localhost:3000");
      Exact (Js.lit "https://frontend-zeeshan-tariqs-projects.vercel.app");
      Exact (Js.lit "https://frontend-eight-psi-iunua3v2s0.vercel.app");
      Pattern (Js.lit "https:\/\/frontend-.*-zeeshan-tariqs-projects\.vercel\.app") ].

(** The JWT options of the configuration, when the plugin list holds them. *)
Definition jwtOptions (o : BetterAuthOptions) : option JwtOptions :=
  match plugins o with
  | jwt j :: _ => Some j
  | [] => None
  end.

(** The time-span notation the token plugin accepts for [expirationTime]:
    decimal digits followed by a unit letter. *)
Definition digit (c : N) : option N :=
  if (48 <=? c) && (c <=? 57) then Some (c - 48) else None.

Fixpoint readDigits (acc : N) (s : JsString) : N * JsString :=
  match s with
  | [] => (acc, [])
  | c :: r =>
      match digit c with
      | Some d => readDigits (10 * acc + d) r
      | None => (acc, s)
      end
  end.

Definition unitSeconds (u : JsString) : option N :=
  if Js.eqb u (Js.lit "s") then Some 1
  else if Js.eqb u (Js.lit "m") then Some 60
  else if Js.eqb u (Js.lit "h") then Some 3600
  else if Js.eqb u (Js.lit "d") then Some 86400
  else if Js.eqb u (Js.lit "w") then Some 604800
  else None.

Definition timespanSeconds (s : JsString) : option N :=
  match s with
  | [] => None
  | c :: _ =>
      match digit c with
      | None => None
      | Some _ =>
          let (n, u) := readDigits 0 s in
          match unitSeconds u with
          | Some k => Some (n * k)
          | None => None
          end
      end
  end.

End AuthServer.

(* ===================================================================== *)
(** ** The task resource behind the API *)
(* ===================================================================== *)

Module Backend.

(** Modelled from the spec: the error taxonomy of the error handling design;
    the back end that raises these errors is not among the front end
    sources. *)
Inductive ApiError : Type :=
| ValidationError      (* a field constraint is violated *)
| AuthError            (* missing, invalid or expired token: unauthorized *)
| AuthorizationError   (* valid token, wrong owner: forbidden *)
| NotFoundError
| NetworkError.        (* transport failure *)


Inductive Result (A : Type) : Type :=
| Ok (a : A)
| Err (e : ApiError).
Arguments Ok {A} a.
Arguments Err {A} e.

(** Modelled from the spec: a stored Task of the data model, the entity
    together with its one owner; the task table of the back end is not
    among the front end sources. *)
Record Row := mkRow { task : Task; owner : UserId }.

(** Modelled from the spec: the Task Resource Store, newest task first, with
    the source of fresh identifiers and the clock that stamps [created_at]
    and [updated_at]. *)
Record Server := mkServer { rows : list Row; nextId : N; clock : N }.

(** Decimal rendering, used for identifiers and timestamps. *)
Definition decimal (n : N) : JsString :=
  Js.lit (NilEmpty.string_of_uint (N.to_uint n)).

(** The row is the task [id] and belongs to [caller]. *)
Definition belongsTo (caller : UserId) (id : TaskId) (r : Row) : bool :=
  Js.eqb (Task.id (task r)) id && Js.eqb (owner r) caller.


Definition lookup (caller : UserId) (id : TaskId) (rs : list Row)
  : option Task :=
  match find (belongsTo caller id) rs with
  | Some r => Some (task r)
  | None => None
  end.

(** Modelled from the spec: the field bounds of the Task data model as the
    operations enforce them, a title of at most 255 characters that is
    required and not empty after trimming, and a description that is absent
    or of at most 10000 characters. *)
Definition validTitle (title : JsString) : bool :=
  Js.truthy (Js.trim title) && (Js.length title <=? 255).

Definition validDescription (description : option JsString) : bool :=
  match description with
  | Some d => Js.length d <=? 10000
  | None => true
  end.

(** Modelled from the spec: [list() -> ordered sequence of Task], scoped to
    the caller. *)
Definition list_ (caller : UserId) (s : Server) : Result (list Task) * Server :=
  (Ok (map task (filter (fun r => Js.eqb (owner r) caller) (rows s))), s).

(** Modelled from the spec: [create(title, description?) -> Task], which
    fails with ValidationError if the title is empty (after trimming, as the
    data model has it) or exceeds the length bound or the description
    exceeds the length bound; the new task is not
    completed, has a fresh identifier and equal [created_at] and
    [updated_at], and is listed first. *)
Definition create (caller : UserId) (title : JsString)
    (description : option JsString) (s : Server) : Result Task * Server :=
  if validTitle title && validDescription description then
    let t := Task.mk (decimal (nextId s)) title description false
                     (decimal (clock s)) (decimal (clock s)) in
    (Ok t, mkServer (mkRow t caller :: rows s) (nextId s + 1) (clock s + 1))
  else (Err ValidationError, s).

(** The rows of [caller]'s task [id] replaced by [t']. *)
Definition store (caller : UserId) (id : TaskId) (t' : Task) (rs : list Row)
  : list Row :=
  map (fun r => if belongsTo caller id r then mkRow t' caller else r) rs.

Definition amend (title : option JsString)
    (description : option (option JsString)) (now : JsString) (t : Task) : Task :=
  Task.mk (Task.id t)
          (match title with Some x => x | None => Task.title t end)
          (match description with Some d => d | None => Task.description t end)
          (Task.completed t) (Task.created_at t) now.

(** Modelled from the spec: [update(id, title?, description?) -> Task], which
    fails with NotFoundError if [id] does not belong to the caller; the
    field bounds are enforced on the fields that are present. *)
Definition update (caller : UserId) (id : TaskId) (title : option JsString)
    (description : option (option JsString)) (s : Server)
  : Result Task * Server :=
  match lookup caller id (rows s) with
  | None => (Err NotFoundError, s)
  | Some t =>
      if match title with Some x => validTitle x | None => true end
         && match description with Some d => validDescription d | None => true end
      then
        let t' := amend title description (decimal (clock s)) t in
        (Ok t', mkServer (store caller id t' (rows s)) (nextId s) (clock s + 1))
      else (Err ValidationError, s)
  end.

Definition flip (now : JsString) (t : Task) : Task :=
  Task.mk (Task.id t) (Task.title t) (Task.description t)
          (negb (Task.completed t)) (Task.created_at t) now.

(** Modelled from the spec: [toggleComplete(id) -> Task], which flips
    [completed] and fails with NotFoundError under the same condition. *)
Definition toggleComplete (caller : UserId) (id : TaskId) (s : Server)
  : Result Task * Server :=
  match lookup caller id (rows s) with
  | None => (Err NotFoundError, s)
  | Some t =>
      let t' := flip (decimal (clock s)) t in
      (Ok t', mkServer (store caller id t' (rows s)) (nextId s) (clock s + 1))
  end.

(** Modelled from the spec: [delete(id) -> void], which fails with
    NotFoundError under the same condition, so that a second delete of the
    same task is an error. *)
Definition delete (caller : UserId) (id : TaskId) (s : Server)
  : Result unit * Server :=
  match lookup caller id (rows s) with
  | None => (Err NotFoundError, s)
  | Some _ =>
      (Ok tt,
       mkServer (filter (fun r => negb (belongsTo caller id r)) (rows s))
                (nextId s) (clock s + 1))
  end.

(** Modelled from the spec: reading one task, which fails for a task that
    does not belong to the caller like update, toggle and delete do. *)
Definition read (caller : UserId) (id : TaskId) (s : Server)
  : Result Task * Server :=
  match lookup caller id (rows s) with
  | None => (Err NotFoundError, s)
  | Some t => (Ok t, s)
  end.

(** The six operations of the contract as requests. *)
Inductive Op : Type :=
| OpList
| OpCreate (title : JsString) (description : option JsString)
| OpUpdate (id : TaskId) (title : option JsString)
           (description : option (option JsString))
| OpToggleComplete (id : TaskId)
| OpDelete (id : TaskId)
| OpRead (id : TaskId).

Inductive Reply : Type :=
| Tasks (ts : list Task)
| One (t : Task)
| Done.

Definition reply {A} (f : A -> Reply) (r : Result A * Server)
  : Result Reply * Server :=
  match r with
  | (Ok a, s) => (Ok (f a), s)
  | (Err e, s) => (Err e, s)
  end.

Definition exec (caller : UserId) (op : Op) (s : Server)
  : Result Reply * Server :=
  match op with
  | OpList => reply Tasks (list_ caller s)
  | OpCreate title description => reply One (create caller title description s)
  | OpUpdate id title description =>
      reply One (update caller id title description s)
  | OpToggleComplete id => reply One (toggleComplete caller id s)
  | OpDelete id => reply (fun _ => Done) (delete caller id s)
  | OpRead id => reply One (read caller id s)
  end.


(** Modelled from the spec: a request as it reaches the back end, with the
    user the bearer token resolves to (none when the token is missing,
    invalid or expired), the user id in the path that scopes the task
    collection, and the operation. *)
Record Request := mkRequest {
  bearer : option UserId;
  pathUser : UserId;
  operation : Op
}.

(** Modelled from the spec: the back end validates the token, resolves the
    user id and authorizes the access: no valid token is unauthorized
    (AuthError), a valid token on the collection of another user is
    forbidden (AuthorizationError), and otherwise the operation runs scoped
    to the caller. *)
Definition serve (q : Request) (s : Server) : Result Reply * Server :=
  match bearer q with
  | None => (Err AuthError, s)
  | Some caller =>
      if Js.eqb (pathUser q) caller then exec caller (operation q) s
      else (Err AuthorizationError, s)
  end.



(** Modelled from the spec: the value the API client throws for a failed
    request: a generic failure has the body [{detail: string}], a field
    validation failure the body [{detail: [{loc, msg, type}, ...]}], here
    with one entry for the request body, and a transport failure has no
    response. *)
Definition thrown (e : ApiError) : JsError :=
  match e with
  | ValidationError =>
      JsError.mk
        (Some (ErrResponse.mk 422
                 (Some (ErrData.mk
                          (Some (ErrData.Items
                                   [ FieldError.mk [Js.lit "body"]
                                       (Js.lit "Invalid value")
                                       (Js.lit "value_error") ]))))))
  | AuthError =>
      JsError.mk
        (Some (ErrResponse.mk 401
                 (Some (ErrData.mk (Some (ErrData.Text (Js.lit "Unauthorized")))))))
  | AuthorizationError =>
      JsError.mk
        (Some (ErrResponse.mk 403
                 (Some (ErrData.mk (Some (ErrData.Text (Js.lit "Forbidden")))))))
  | NotFoundError =>
      JsError.mk
        (Some (ErrResponse.mk 404
                 (Some (ErrData.mk (Some (ErrData.Text (Js.lit "Task not found")))))))
  | NetworkError => JsError.mk None
  end.

Definition settle {A} (r : Result A * Server) : Settled A * Server :=
  match r with
  | (Ok a, s) => (Resolved a, s)
  | (Err e, s) => (Rejected (thrown e), s)
  end.

(** [description?: string | null]: absent and [null] both mean none. *)
Definition given (d : option (option JsString)) : option JsString :=
  match d with
  | Some x => x
  | None => None
  end.

(** Modelled from the spec: the API client in front of the task resource.
    The bearer token it attaches is the one of the session whose user id
    the dashboard passes for the path, so each request is authorized and
    runs the operation scoped to that user. *)
#[global] Instance api : TaskApi Server := {
  listTasks userId s := settle (list_ userId s);
  createTask userId body s :=
    settle (create userId (TaskCreate.title body)
                   (given (TaskCreate.description body)) s);
  toggleComplete userId taskId s := settle (toggleComplete userId taskId s);
  updateTask userId taskId body s :=
    settle (update userId taskId (TaskUpdate.title body)
                   (TaskUpdate.description body) s);
  deleteTask userId taskId s := settle (delete userId taskId s)
}.

End Backend.

(* ===================================================================== *)
(** ** Sample data *)
(* ===================================================================== *)

Module Sample.

Definition alice : User :=
  User.mk (Js.lit "alice") (Js.lit "alice@example.com") None.

Definition bob : User :=
  User.mk (Js.lit "bob") (Js.lit "bob@example.com") (Some (Js.lit "Bob")).

(** Alice is signed in. *)
Definition session : option Session := Some (Session.mk (Some alice)).

Definition milk : Task :=
  Task.mk (Js.lit "1") (Js.lit "Buy milk") None false (Js.lit "100") (Js.lit "100").

Definition call : Task :=
  Task.mk (Js.lit "2") (Js.lit "Call home") (Some (Js.lit "after six")) true
          (Js.lit "101") (Js.lit "102").

(** Bob's task is the newest; Alice owns the older one. *)
Definition server : Backend.Server :=
  Backend.mkServer
    [ Backend.mkRow call (User.id bob); Backend.mkRow milk (User.id alice) ]
    3 103.

(** Alice's dashboard once her list is loaded. *)
Definition page : Page.t Backend.Server :=
  Page.mk (Dashboard.mk [milk] false None false None) [] [] server.

(** A title of 256 characters and a description of 10001. *)
Definition longTitle : JsString := repeat 97 256.
Definition longDescription : JsString := repeat 97 (N.to_nat 10001).

End Sample.

(* ===================================================================== *)
(** ** A client without network *)
(* ===================================================================== *)

Module Offline.

(** The value a failed transport throws: there is no response to read. *)
Definition networkError : JsError := JsError.mk None.

(** An API client whose every request fails in transport; nothing lies
    behind it. *)
#[global] Instance api : TaskApi unit := {
  listTasks _ w := (Rejected networkError, w);
  createTask _ _ w := (Rejected networkError, w);
  toggleComplete _ _ w := (Rejected networkError, w);
  updateTask _ _ _ w := (Rejected networkError, w);
  deleteTask _ _ w := (Rejected networkError, w)
}.

(** Alice's dashboard, list loaded, with the network gone. *)
Definition page : Page.t unit :=
  Page.mk (Dashboard.mk [Sample.milk] false None false None) [] [] tt.

End Offline.

(** A server that refuses every request with one and the same response. *)
Module Refusing.

Definition api (e : JsError) : TaskApi unit := {|
  listTasks := fun _ w => (Rejected e, w);
  createTask := fun _ _ w => (Rejected e, w);
  toggleComplete := fun _ _ w => (Rejected e, w);
  updateTask := fun _ _ _ w => (Rejected e, w);
  deleteTask := fun _ _ w => (Rejected e, w)
|}.

(** A 503 whose body is [{detail: "Service unavailable"}]. *)
Definition unavailable : JsError :=
  JsError.mk
    (Some (ErrResponse.mk 503
             (Some (ErrData.mk (Some (ErrData.Text (Js.lit "Service unavailable"))))))).

(** The field error of a title the server finds too long. *)
Definition titleTooLong : FieldError.t :=
  FieldError.mk [Js.lit "body"; Js.lit "title"]
                (Js.lit "String should have at most 255 characters")
                (Js.lit "string_too_long").

(** A 422 whose body is the field validation body with that one entry. *)
Definition invalid : JsError :=
  JsError.mk
    (Some (ErrResponse.mk 422
             (Some (ErrData.mk (Some (ErrData.Items [titleTooLong])))))).

End Refusing.

(** The task an action names; a create names none. *)
Definition namedTask (a : Action) : option TaskId :=
  match a with
  | Create _ _ => None
  | Toggle taskId | Update taskId _ _ | Delete taskId => Some taskId
  end.

(* ===================================================================== *)
(** * Properties *)
(* ===================================================================== *)

(** ** Strings *)

Lemma Js_eqb_eq (a b : JsString) : Js.eqb a b = true <-> a = b.
Proof.
  revert b. induction a as [|x a IH]; intros [|y b]; simpl; split;
    try congruence; try reflexivity.
  - intros H. apply andb_true_iff in H as [Hx Ht].
    apply N.eqb_eq in Hx. apply IH in Ht. congruence.
  - intros H. injection H as -> ->.
    rewrite N.eqb_refl. simpl. apply IH. reflexivity.
Qed.

Lemma Js_eqb_refl (a : JsString) : Js.eqb a a = true.
Proof. apply Js_eqb_eq. reflexivity. Qed.

Lemma Js_eqb_neq (a b : JsString) : Js.eqb a b = false <-> a <> b.
Proof.
  split.
  - intros H E. apply Js_eqb_eq in E. congruence.
  - intros H. destruct (Js.eqb a b) eqn:E; [|reflexivity].
    apply Js_eqb_eq in E. contradiction.
Qed.

Lemma Js_truthy_length (s : JsString) : Js.truthy s = true <-> 1 <= Js.length s.
Proof.
  unfold Js.length. destruct s; simpl; split; intros H; try congruence; lia.
Qed.

Lemma Js_or_else_truthy (o : option JsString) (d : JsString) :
  Js.truthy d = true -> Js.truthy (Js.or_else o d) = true.
Proof.
  intros Hd. unfold Js.or_else. destruct o as [s|]; [|exact Hd].
  destruct (Js.truthy s) eqn:E; assumption.
Qed.

Lemma trimStart_length (s : JsString) :
  (List.length (Js.trimStart s) <= List.length s)%nat.
Proof.
  induction s as [|c r IH]; simpl; [lia|].
  destruct (Js.isWhiteSpace c); simpl; lia.
Qed.

(** Trimming never makes a string longer. *)
Lemma trim_length (s : JsString) : Js.length (Js.trim s) <= Js.length s.
Proof.
  unfold Js.length, Js.trim, Js.trimEnd.
  rewrite length_rev.
  pose proof (trimStart_length (rev (Js.trimStart s))) as H1.
  rewrite length_rev in H1.
  pose proof (trimStart_length s) as H2. lia.
Qed.

Lemma trimStart_head (s : JsString) :
  match Js.trimStart s with
  | [] => True
  | c :: _ => Js.isWhiteSpace c = false
  end.
Proof.
  induction s as [|c r IH]; simpl; [exact I|].
  destruct (Js.isWhiteSpace c) eqn:E; [exact IH | exact E].
Qed.

Lemma trimStart_fixed (s : JsString) :
  match s with
  | [] => True
  | c :: _ => Js.isWhiteSpace c = false
  end ->
  Js.trimStart s = s.
Proof. destruct s as [|c r]; simpl; [reflexivity|]. intros ->. reflexivity. Qed.

Lemma trimStart_snoc (l : JsString) (c : N) :
  Js.isWhiteSpace c = false ->
  Js.trimStart (l ++ [c]) = Js.trimStart l ++ [c].
Proof.
  intros Hc. induction l as [|x l IH]; simpl.
  - rewrite Hc. reflexivity.
  - destruct (Js.isWhiteSpace x); [exact IH | reflexivity].
Qed.

Lemma trimEnd_idempotent (s : JsString) :
  Js.trimEnd (Js.trimEnd s) = Js.trimEnd s.
Proof.
  unfold Js.trimEnd. rewrite rev_involutive.
  rewrite (trimStart_fixed _ (trimStart_head (rev s))). reflexivity.
Qed.

(** Trimming the end keeps a first character that is no white space. *)
Lemma trimEnd_head (s : JsString) :
  match s with
  | [] => True
  | c :: _ => Js.isWhiteSpace c = false
  end ->
  match Js.trimEnd s with
  | [] => True
  | c :: _ => Js.isWhiteSpace c = false
  end.
Proof.
  destruct s as [|c r]; [intros _; exact I|].
  intros Hc. unfold Js.trimEnd. simpl.
  rewrite (@trimStart_snoc (rev r) c Hc), rev_app_distr. simpl. exact Hc.
Qed.

(** [trim] applied twice is [trim]. *)
Lemma trim_idempotent (s : JsString) : Js.trim (Js.trim s) = Js.trim s.
Proof.
  unfold Js.trim.
  rewrite (trimStart_fixed _ (trimEnd_head _ (trimStart_head s))).
  apply trimEnd_idempotent.
Qed.

(** ** The reconciliation functions of the dashboard *)

Lemma replaceById_Replaced taskId updated prev :
  Replaced taskId updated prev (replaceById taskId updated prev).
Proof.
  unfold Replaced, replaceById.
  induction prev as [|x prev IH]; simpl; constructor; [|exact IH].
  destruct (Js.eqb (Task.id x) taskId) eqn:E.
  - apply Js_eqb_eq in E. split; [reflexivity | contradiction].
  - apply Js_eqb_neq in E. split; [contradiction | reflexivity].
Qed.

Lemma removeById_Without taskId prev :
  Without taskId prev (removeById taskId prev).
Proof.
  unfold removeById.
  induction prev as [|x prev IH]; simpl; [constructor|].
  destruct (Js.eqb (Task.id x) taskId) eqn:E; simpl.
  - apply Js_eqb_eq in E. apply Without_drop; assumption.
  - apply Js_eqb_neq in E. apply Without_keep; assumption.
Qed.

(** When one entry carries the id, deleting takes out that entry alone. *)
Lemma Without_unique taskId before x after next :
  Task.id x = taskId ->
  Forall (fun t => Task.id t <> taskId) before ->
  Forall (fun t => Task.id t <> taskId) after ->
  Without taskId (before ++ x :: after) next ->
  next = before ++ after.
Proof.
  intros Hx Hb Ha. revert next.
  assert (Hafter : forall l next, Forall (fun t => Task.id t <> taskId) l ->
                                  Without taskId l next -> next = l).
  { induction l as [|y l IH]; intros next Hl H; inversion H; subst.
    - reflexivity.
    - inversion Hl; subst. contradiction.
    - inversion Hl; subst. f_equal. apply IH; assumption. }
  induction before as [|y before IH]; intros next H; simpl in *.
  - inversion H; subst; [apply Hafter; assumption | contradiction].
  - inversion Hb; subst. inversion H; subst; [contradiction|].
    f_equal. apply IH; assumption.
Qed.

(** ** The handlers of the dashboard *)

Ltac run_handler :=
  unfold handle, handleCreateTask, handleToggleComplete, handleUpdateTask,
    handleDeleteTask, requireUserId, try_finally, try_catch, bind, await,
    setState, console_error, modify, throw, ret.

Section Handlers.

Context {W : Type} {taskApi : TaskApi W}.
Variable session : option Session.

(** Without a user id every handler returns at its first line. *)
Lemma requireUserId_absent (k : UserId -> M (Page.t W) unit) (p : Page.t W) :
  Js.truthy_opt (userId session) = false ->
  requireUserId session k p = (Returned tt, p).
Proof.
  unfold requireUserId. destruct (userId session) as [u|]; simpl.
  - intros ->. reflexivity.
  - reflexivity.
Qed.

Lemma requireUserId_present (k : UserId -> M (Page.t W) unit) (u : UserId) :
  userId session = Some u -> Js.truthy u = true ->
  requireUserId session k = k u.
Proof. unfold requireUserId. intros -> ->. reflexivity. Qed.

End Handlers.

(** C10: when the session carries no user id (no session, no user, or an
    empty id), each of the four mutation handlers returns at once: its run
    ends normally in the very state it started from, so no call to the API
    is recorded, the world behind the API, the task list, both error
    strings and the console are as before. *)
Theorem C10_no_user_id_is_a_no_op
    {W : Type} {taskApi : TaskApi W}
    (session : option Session) (a : Action) (p : Page.t W) :
  Js.truthy_opt (userId session) = false ->
  handle session a p = (Returned tt, p).
Proof.
  intros H. destruct a; simpl;
    unfold handleCreateTask, handleToggleComplete, handleUpdateTask,
      handleDeleteTask;
    apply requireUserId_absent; exact H.
Qed.

Lemma or_text_showable (e : JsError) (d : JsString) :
  showable e = true -> Js.truthy d = true ->
  exists msg : JsString,
    ErrData.or_text (JsError.detail e) d = ErrData.Text msg /\
    Js.truthy msg = true.
Proof.
  intros Hs Hd. unfold showable in Hs. unfold ErrData.or_text.
  destruct e as [| r |]; try discriminate;
    (destruct (JsError.detail _) as [[s | fields]|];
     [ simpl; destruct (Js.truthy s) eqn:E; eexists; split; eauto
     | discriminate
     | eexists; split; eauto ]).
Qed.

(** X26: when the server operation an action invokes is rejected, the
    handler leaves the task list as it was and logs the caught value; for
    toggle, update and delete it sets the list-level error to a non-empty
    message, which the task list renders once loading is over, and it
    re-throws for update and returns for toggle and delete; for create,
    when the rejection is not null or undefined and carries a string detail
    or none, it sets the form's error to a non-empty string, which the form
    renders, and re-throws. *)
Theorem failed_operation_is_reported
    {W : Type} {taskApi : TaskApi W}
    (session : option Session) (u : UserId) (a : Action) (p : Page.t W)
    (e : JsError) (w' : W) :
  userId session = Some u ->
  Js.truthy u = true ->
  perform u a (Page.world p) = (Rejected e, w') ->
  match a with Create _ _ => showable e = true | _ => True end ->
  exists (p' : Page.t W) (msg : JsString),
    handle session a p = ((if rethrows a then Threw e else Returned tt), p') /\
    Dashboard.tasks (Page.dash p') = Dashboard.tasks (Page.dash p) /\
    Js.truthy msg = true /\
    Page.console p' = Page.console p ++ [(logged a, e)] /\
    Page.calls p' = Page.calls p ++ [request u a] /\
    Page.world p' = w' /\
    match a with
    | Create _ _ =>
        Dashboard.createError (Page.dash p') = Some (ErrData.Text msg) /\
        forall form, TaskForm.localError form = None ->
          TaskForm.errorView
            (TaskForm.displayError form (Dashboard.createError (Page.dash p')))
          = TaskForm.ErrorText msg
    | _ =>
        Dashboard.error (Page.dash p') = Some msg /\
        (Dashboard.isLoading (Page.dash p') = false ->
         TaskList (Dashboard.tasks (Page.dash p'))
                  (Dashboard.isLoading (Page.dash p'))
                  (Dashboard.error (Page.dash p')) = ErrorBox msg)
    end.
Proof.
  intros Hu Ht Hrej Hshow.
  destruct a as [title description | taskId | taskId title description | taskId];
    simpl in Hrej |- *.
  - unfold handleCreateTask. rewrite (requireUserId_present session _ Hu Ht).
    destruct (createTask u (TaskCreate.mk title (Some description)) (Page.world p))
      as [[t | e0] w0] eqn:E; [discriminate|].
    injection Hrej as <- <-.
    destruct (@or_text_showable e0 (Js.lit "Failed to create task") Hshow eq_refl)
      as (msg & Hmsg & Htruthy).
    unfold try_finally, try_catch, bind, await, setState, console_error,
      modify, throw, ret.
    cbn -[ErrData.or_text JsError.detail Js.lit]. rewrite E.
    destruct e0 as [| r |]; [discriminate Hshow | |];
      cbn -[ErrData.or_text JsError.detail Js.lit]; rewrite Hmsg;
      (eexists; exists msg; split; [reflexivity|]; simpl;
       repeat split; try reflexivity; try exact Htruthy;
       intros form Hform; unfold TaskForm.displayError; rewrite Hform;
       destruct msg; [discriminate | reflexivity]).
  - unfold handleToggleComplete. rewrite (requireUserId_present session _ Hu Ht).
    destruct (toggleComplete u taskId (Page.world p)) as [[t | e0] w0] eqn:E;
      [discriminate|].
    injection Hrej as <- <-.
    run_handler. simpl. rewrite E. simpl.
    eexists. exists (Js.lit "Failed to update task. Please try again.").
    split; [reflexivity|]. simpl.
    repeat split; try reflexivity.
    intros ->. reflexivity.
  - unfold handleUpdateTask. rewrite (requireUserId_present session _ Hu Ht).
    destruct (updateTask u taskId (TaskUpdate.mk (Some title) (Some description))
                (Page.world p)) as [[t | e0] w0] eqn:E; [discriminate|].
    injection Hrej as <- <-.
    run_handler. simpl. rewrite E. simpl.
    eexists. exists (Js.lit "Failed to update task. Please try again.").
    split; [reflexivity|]. simpl.
    repeat split; try reflexivity.
    intros ->. reflexivity.
  - unfold handleDeleteTask. rewrite (requireUserId_present session _ Hu Ht).
    destruct (deleteTask u taskId (Page.world p)) as [[t | e0] w0] eqn:E;
      [discriminate|].
    injection Hrej as <- <-.
    run_handler. simpl. rewrite E. simpl.
    eexists. exists (Js.lit "Failed to delete task. Please try again.").
    split; [reflexivity|]. simpl.
    repeat split; try reflexivity.
    intros ->. reflexivity.
Qed.

(** C6: when the server operation an action invokes succeeds, the handler
    returns normally and the local list is reconciled with what the server
    returned: create puts the returned task in front of the list, which is
    otherwise as before; toggle and update replace, position by position,
    exactly the entries whose id is the task id by the returned task and
    keep every other entry; delete drops exactly the entries whose id is the
    task id and keeps the others in their order. *)
Theorem C6_success_reconciles_list
    {W : Type} {taskApi : TaskApi W}
    (session : option Session) (u : UserId) (a : Action) (p : Page.t W)
    (r : option Task) (w' : W) :
  userId session = Some u ->
  Js.truthy u = true ->
  perform u a (Page.world p) = (Resolved r, w') ->
  exists p' : Page.t W,
    handle session a p = (Returned tt, p') /\
    Reconciled a r (Dashboard.tasks (Page.dash p)) (Dashboard.tasks (Page.dash p')) /\
    Page.calls p' = Page.calls p ++ [request u a] /\
    Page.world p' = w'.
Proof.
  intros Hu Ht Hok.
  destruct a as [title description | taskId | taskId title description | taskId];
    simpl in Hok |- *.
  - unfold handleCreateTask. rewrite (requireUserId_present session _ Hu Ht).
    destruct (createTask u (TaskCreate.mk title (Some description)) (Page.world p))
      as [[t | e0] w0] eqn:E; [|discriminate].
    injection Hok as <- <-.
    run_handler. simpl. rewrite E. simpl.
    eexists. split; [reflexivity|]. simpl.
    repeat split. constructor.
  - unfold handleToggleComplete. rewrite (requireUserId_present session _ Hu Ht).
    destruct (toggleComplete u taskId (Page.world p)) as [[t | e0] w0] eqn:E;
      [|discriminate].
    injection Hok as <- <-.
    run_handler. simpl. rewrite E. simpl.
    eexists. split; [reflexivity|]. simpl.
    repeat split. constructor. apply replaceById_Replaced.
  - unfold handleUpdateTask. rewrite (requireUserId_present session _ Hu Ht).
    destruct (updateTask u taskId (TaskUpdate.mk (Some title) (Some description))
                (Page.world p)) as [[t | e0] w0] eqn:E; [|discriminate].
    injection Hok as <- <-.
    run_handler. simpl. rewrite E. simpl.
    eexists. split; [reflexivity|]. simpl.
    repeat split. constructor. apply replaceById_Replaced.
  - unfold handleDeleteTask. rewrite (requireUserId_present session _ Hu Ht).
    destruct (deleteTask u taskId (Page.world p)) as [[t | e0] w0] eqn:E;
      [|discriminate].
    injection Hok as <- <-.
    run_handler. simpl. rewrite E. simpl.
    eexists. split; [reflexivity|]. simpl.
    repeat split. constructor. apply removeById_Without.
Qed.

(** With nobody signed in, a toggle leaves Alice's page as it is. *)
Lemma C10_no_user_id_witness :
  Js.truthy_opt (userId None) = false /\
  handle None (Toggle (Task.id Sample.milk)) Sample.page
  = (Returned tt, Sample.page).
Proof.
  split; [reflexivity|].
  apply (C10_no_user_id_is_a_no_op None (Toggle (Task.id Sample.milk)) Sample.page).
  reflexivity.
Defined.

(** Alice toggles Bob's task: the server answers 404 and the page reports
    it. *)
Lemma failed_operation_witness :
  exists (p' : Page.t Backend.Server) (msg : JsString),
    handle Sample.session (Toggle (Task.id Sample.call)) Sample.page
    = (Returned tt, p') /\
    Dashboard.tasks (Page.dash p') = [Sample.milk] /\
    Dashboard.error (Page.dash p') = Some msg /\
    Js.truthy msg = true.
Proof.
  destruct (@failed_operation_is_reported Backend.Server Backend.api
              Sample.session (User.id Sample.alice)
              (Toggle (Task.id Sample.call)) Sample.page
              (Backend.thrown Backend.NotFoundError) Sample.server
              eq_refl eq_refl eq_refl I)
    as (p' & msg & Hrun & Htasks & Hmsg & _ & _ & _ & Herror & _).
  exists p', msg. repeat split; assumption.
Defined.

(** Alice toggles her own task: the flipped task the server returns takes
    the place of the local entry. *)
Lemma C6_success_witness :
  exists p' : Page.t Backend.Server,
    handle Sample.session (Toggle (Task.id Sample.milk)) Sample.page
    = (Returned tt, p') /\
    Reconciled (Toggle (Task.id Sample.milk))
               (Some (Backend.flip (Js.lit "103") Sample.milk))
               [Sample.milk] (Dashboard.tasks (Page.dash p')).
Proof.
  destruct (C6_success_reconciles_list
              Sample.session (u := User.id Sample.alice)
              (Toggle (Task.id Sample.milk)) Sample.page
              (r := Some (Backend.flip (Js.lit "103") Sample.milk))
              (w' := Backend.mkServer
                       [ Backend.mkRow Sample.call (User.id Sample.bob);
                         Backend.mkRow (Backend.flip (Js.lit "103") Sample.milk)
                                       (User.id Sample.alice) ]
                       3 104))
    as (p' & Hrun & Hrec & _).
  - reflexivity.
  - reflexivity.
  - reflexivity.
  - exists p'. split; assumption.
Defined.

(** C7, the create half at two rejections. When [taskApi.createTask]
    rejects with the field validation body of [interface ValidationError],
    whose [detail] is a list, the catch block of [handleCreateTask] keeps the
    list through [||] and stores it in [createError]: no error string is
    set, and the form, handed the list of objects to render, throws instead
    of showing a message. When the promise rejects with [null] or
    [undefined], reading [error.response] throws before [setCreateError]:
    [createError] stays null and what leaves the handler is the
    [TypeError], not the value that was caught. In both runs the list is
    untouched and the caught value is logged. *)
Theorem C7_create_failure_sets_no_error_string :
  let listed := @handleCreateTask unit (Refusing.api Refusing.invalid)
                  Sample.session (Js.lit "Buy bread") None Offline.page in
  let nothing := @handleCreateTask unit (Refusing.api JsError.Nullish)
                   Sample.session (Js.lit "Buy bread") None Offline.page in
  (fst listed = Threw Refusing.invalid /\
   Dashboard.createError (Page.dash (snd listed))
   = Some (ErrData.Items [Refusing.titleTooLong]) /\
   TaskForm.errorView
     (TaskForm.displayError TaskForm.initial
        (Dashboard.createError (Page.dash (snd listed))))
   = TaskForm.RenderThrows /\
   Dashboard.tasks (Page.dash (snd listed)) = [Sample.milk] /\
   Page.console (snd listed)
   = [(Js.lit "Failed to create task:", Refusing.invalid)]) /\
  (fst nothing = Threw JsError.TypeError /\
   Dashboard.createError (Page.dash (snd nothing)) = None /\
   TaskForm.errorView
     (TaskForm.displayError TaskForm.initial
        (Dashboard.createError (Page.dash (snd nothing))))
   = TaskForm.NoErrorBox /\
   Dashboard.tasks (Page.dash (snd nothing)) = [Sample.milk] /\
   Page.console (snd nothing)
   = [(Js.lit "Failed to create task:", JsError.Nullish)]).
Proof. vm_compute. repeat split. Qed.

(** ** Client-side validation *)

Section Validation.

Context {P : Type}.

(** The create form turns down a title that is empty or longer than 255
    characters after trimming: it only sets its inline error, and [onSubmit]
    is not run, whatever it is. *)
Lemma TaskForm_handleSubmit_rejects_title
    (onSubmit : JsString -> option JsString -> M P unit)
    (form : TaskForm.state) (p : P) :
  Js.length (Js.trim (TaskForm.title form)) = 0 \/
  255 < Js.length (Js.trim (TaskForm.title form)) ->
  exists msg : JsString,
    Js.truthy msg = true /\
    TaskForm.handleSubmit onSubmit form (form, p)
    = (Returned tt, (TaskForm.setLocalError (Some msg) form, p)).
Proof.
  intros H. unfold TaskForm.handleSubmit, bind, child. simpl.
  destruct (Js.truthy (Js.trim (TaskForm.title form))) eqn:Et; simpl.
  - apply Js_truthy_length in Et.
    destruct H as [H | H]; [lia|].
    apply N.ltb_lt in H. rewrite H.
    eexists. split; [|reflexivity]. reflexivity.
  - eexists. split; [|reflexivity]. reflexivity.
Qed.

(** The create form turns down a description longer than 10000 characters
    in the same way, whatever the title is. *)
Lemma TaskForm_handleSubmit_rejects_description
    (onSubmit : JsString -> option JsString -> M P unit)
    (form : TaskForm.state) (p : P) :
  10000 < Js.length (TaskForm.description form) ->
  exists msg : JsString,
    Js.truthy msg = true /\
    TaskForm.handleSubmit onSubmit form (form, p)
    = (Returned tt, (TaskForm.setLocalError (Some msg) form, p)).
Proof.
  intros H. unfold TaskForm.handleSubmit, bind, child. simpl.
  destruct (Js.truthy (Js.trim (TaskForm.title form))); simpl;
    [|eexists; split; [|reflexivity]; reflexivity].
  destruct (255 <? Js.length (Js.trim (TaskForm.title form)));
    [eexists; split; [|reflexivity]; reflexivity|].
  apply N.ltb_lt in H. rewrite H.
  eexists; split; [|reflexivity]; reflexivity.
Qed.

(** The edit row turns down a title that is empty after trimming: nothing
    changes and [onUpdate] is not run. *)
Lemma TaskItem_handleSaveEdit_rejects_empty_title
    (task : Task) (onUpdate : TaskId -> JsString -> option JsString -> M P unit)
    (row : TaskItem.state) (p : P) :
  Js.length (Js.trim (TaskItem.editTitle row)) = 0 ->
  TaskItem.handleSaveEdit task onUpdate row (row, p) = (Returned tt, (row, p)).
Proof.
  intros H. unfold TaskItem.handleSaveEdit.
  destruct (Js.truthy (Js.trim (TaskItem.editTitle row))) eqn:Et.
  - apply Js_truthy_length in Et. lia.
  - reflexivity.
Qed.

(** Past the empty-title test the edit row runs [onUpdate] with the trimmed
    title and the trimmed description, of whatever length they are. *)
Lemma TaskItem_handleSaveEdit_calls_onUpdate
    (task : Task) (onUpdate : TaskId -> JsString -> option JsString -> M P unit)
    (row : TaskItem.state) (p : P) :
  1 <= Js.length (Js.trim (TaskItem.editTitle row)) ->
  snd (snd (TaskItem.handleSaveEdit task onUpdate row (row, p)))
  = snd (onUpdate (Task.id task) (Js.trim (TaskItem.editTitle row))
                  (Js.or_null (Js.trim (TaskItem.editDescription row))) p).
Proof.
  intros H. apply Js_truthy_length in H.
  unfold TaskItem.handleSaveEdit. rewrite H. simpl.
  unfold bind, try_finally, parent, child. simpl.
  destruct (onUpdate _ _ _ p) as [[[] | e] p']; reflexivity.
Qed.

End Validation.

(** On the dashboard, then, a submit the form turns down reaches neither
    [handleCreateTask] nor the API: the page is what it was. *)
Lemma submitCreateForm_rejects
    {W : Type} {taskApi : TaskApi W} (session : option Session)
    (form : TaskForm.state) (p : Page.t W) :
  Js.length (Js.trim (TaskForm.title form)) = 0 \/
  255 < Js.length (Js.trim (TaskForm.title form)) \/
  10000 < Js.length (TaskForm.description form) ->
  exists msg : JsString,
    Js.truthy msg = true /\
    submitCreateForm session (form, p)
    = (Returned tt, (TaskForm.setLocalError (Some msg) form, p)).
Proof.
  unfold submitCreateForm. simpl. intros [H | [H | H]].
  - apply TaskForm_handleSubmit_rejects_title. left. exact H.
  - apply TaskForm_handleSubmit_rejects_title. right. exact H.
  - apply TaskForm_handleSubmit_rejects_description. exact H.
Qed.

(** The edit row on the dashboard: once the trimmed title is not empty and
    a user is signed in, saving calls [taskApi.updateTask] with the trimmed
    title and description, however long they are. *)
Lemma saveTaskEdit_calls_updateTask
    {W : Type} {taskApi : TaskApi W} (session : option Session) (u : UserId)
    (task : Task) (row : TaskItem.state) (p : Page.t W) :
  userId session = Some u ->
  Js.truthy u = true ->
  1 <= Js.length (Js.trim (TaskItem.editTitle row)) ->
  Page.calls (snd (snd (saveTaskEdit session task (row, p))))
  = Page.calls p
    ++ [ CallUpdateTask u (Task.id task)
           (TaskUpdate.mk
              (Some (Js.trim (TaskItem.editTitle row)))
              (Some (Js.or_null (Js.trim (TaskItem.editDescription row))))) ].
Proof.
  intros Hu Ht Hlen. unfold saveTaskEdit. simpl.
  rewrite (@TaskItem_handleSaveEdit_calls_onUpdate _ task
             (handleUpdateTask session) row p Hlen).
  unfold handleUpdateTask. rewrite (requireUserId_present session _ Hu Ht).
  run_handler. simpl.
  destruct (updateTask u (Task.id task) _ (Page.world p)) as [[t | e] w'];
    reflexivity.
Qed.

(** C2, the update half at a title of 256 characters: opened on Alice's
    task, the edit row holds the over-long title, [handleSaveEdit] passes
    it to [handleUpdateTask], and [taskApi.updateTask] is called with it.
    The task resource, which enforces the bound, turns the request down; the
    rejection leaves the handler as a thrown value with the row's editing
    cell still up, and the error that [handleUpdateTask] has set takes the
    row off the page. *)
Theorem C2_update_sends_overlong_title :
  let row := TaskItem.setEditTitle Sample.longTitle
               (TaskItem.handleStartEdit Sample.milk
                  (TaskItem.initial Sample.milk)) in
  let run := saveTaskEdit Sample.session Sample.milk (row, Sample.page) in
  Js.length (Js.trim (TaskItem.editTitle row)) = 256 /\
  Page.calls (snd (snd run))
  = [ CallUpdateTask (User.id Sample.alice) (Task.id Sample.milk)
        (TaskUpdate.mk (Some Sample.longTitle) (Some None)) ] /\
  fst run = Threw (Backend.thrown Backend.ValidationError) /\
  TaskItem.isEditing (fst (snd run)) = true /\
  rowAfter Sample.milk (snd run) = None.
Proof. vm_compute. repeat split. Qed.

(** C3, the update half at a description of 10001 characters:
    [handleSaveEdit] has no test on the description, so
    [taskApi.updateTask] is called with it. *)
Theorem C3_update_sends_overlong_description :
  let row := TaskItem.setEditDescription Sample.longDescription
               (TaskItem.handleStartEdit Sample.milk
                  (TaskItem.initial Sample.milk)) in
  let run := saveTaskEdit Sample.session Sample.milk (row, Sample.page) in
  Js.length (TaskItem.editDescription row) = 10001 /\
  Page.calls (snd (snd run))
  = [ CallUpdateTask (User.id Sample.alice) (Task.id Sample.milk)
        (TaskUpdate.mk (Some (Task.title Sample.milk))
                       (Some (Some Sample.longDescription))) ] /\
  fst run = Threw (Backend.thrown Backend.ValidationError).
Proof. vm_compute. repeat split. Qed.

(** ** Authentication configuration *)

(** C8: [getBaseUrl] takes the explicit public app URL when
    [NEXT_PUBLIC_APP_URL] is set (defined and not the empty string, the test
    [if (process.env.X)] makes); otherwise, when [VERCEL_URL] is set, that
    host behind the scheme [https://]; otherwise [http://localhost:3000]. *)
Theorem C8_getBaseUrl_resolution_order (env : AuthServer.Env.t) :
  (forall url : JsString,
     AuthServer.Env.NEXT_PUBLIC_APP_URL env = Some url -> url <> [] ->
     AuthServer.getBaseUrl env = url) /\
  (forall host : JsString,
     Js.truthy_opt (AuthServer.Env.NEXT_PUBLIC_APP_URL env) = false ->
     AuthServer.Env.VERCEL_URL env = Some host -> host <> [] ->
     AuthServer.getBaseUrl env = Js.lit "https://" ++ host) /\
  (Js.truthy_opt (AuthServer.Env.NEXT_PUBLIC_APP_URL env) = false ->
   Js.truthy_opt (AuthServer.Env.VERCEL_URL env) = false ->
   AuthServer.getBaseUrl env = Js.lit "http://localhost:3000").
Proof.
  unfold AuthServer.getBaseUrl.
  repeat split.
  - intros url -> Hne. destruct url; [contradiction | reflexivity].
  - intros host Happ -> Hne.
    destruct (AuthServer.Env.NEXT_PUBLIC_APP_URL env) as [[|c url]|];
      try discriminate; (destruct host; [contradiction | reflexivity]).
  - intros Happ Hhost.
    destruct (AuthServer.Env.NEXT_PUBLIC_APP_URL env) as [[|c url]|];
      try discriminate;
      (destruct (AuthServer.Env.VERCEL_URL env) as [[|c' host]|];
       try discriminate; reflexivity).
Qed.

(** The three cases on three environments: both variables set, only the
    deployment host set, and neither set (the app URL being empty). *)
Lemma C8_getBaseUrl_witness :
  AuthServer.getBaseUrl
    (AuthServer.Env.mk (Some (Js.lit "https://todo.example.com"))
                       (Some (Js.lit "todo-abc.vercel.app")) None None None)
  = Js.lit "https://todo.example.com" /\
  AuthServer.getBaseUrl
    (AuthServer.Env.mk None (Some (Js.lit "todo-abc.vercel.app")) None None None)
  = Js.lit "https://todo-abc.vercel.app" /\
  AuthServer.getBaseUrl (AuthServer.Env.mk (Some []) None None None None)
  = Js.lit "http://localhost:3000".
Proof.
  split; [|split].
  - apply (proj1 (C8_getBaseUrl_resolution_order
                    (AuthServer.Env.mk (Some (Js.lit "https://todo.example.com"))
                       (Some (Js.lit "todo-abc.vercel.app")) None None None)));
      [reflexivity | discriminate].
  - apply (proj1 (proj2 (C8_getBaseUrl_resolution_order
                    (AuthServer.Env.mk None (Some (Js.lit "todo-abc.vercel.app"))
                       None None None))));
      [reflexivity | reflexivity | discriminate].
  - apply (proj2 (proj2 (C8_getBaseUrl_resolution_order
                    (AuthServer.Env.mk (Some []) None None None None))));
      reflexivity.
Defined.

(** C9: in every environment the configuration enables email and password
    login with a minimum password length of 8, and its one plugin is the
    JWT plugin with expiration time ["7d"], which is seven days, and with
    issuer and audience both the resolved base URL. *)
Theorem C9_auth_configuration (env : AuthServer.Env.t) :
  AuthServer.enabled (AuthServer.emailAndPassword (AuthServer.auth env)) = true /\
  AuthServer.minPasswordLength (AuthServer.emailAndPassword (AuthServer.auth env))
  = 8 /\
  exists j : AuthServer.JwtOptions,
    AuthServer.plugins (AuthServer.auth env) = [AuthServer.jwt j] /\
    AuthServer.expirationTime j = Js.lit "7d" /\
    AuthServer.timespanSeconds (AuthServer.expirationTime j)
    = Some (7 * 24 * 60 * 60) /\
    AuthServer.issuer j = AuthServer.getBaseUrl env /\
    AuthServer.audience j = AuthServer.getBaseUrl env.
Proof.
  split; [reflexivity|]. split; [reflexivity|].
  eexists. split; [reflexivity|].
  repeat split; reflexivity.
Qed.

(** ** The task resource *)

Lemma lookup_id caller id rs t :
  Backend.lookup caller id rs = Some t -> Task.id t = id.
Proof.
  unfold Backend.lookup.
  destruct (find (Backend.belongsTo caller id) rs) as [r|] eqn:E; [|discriminate].
  intros H. injection H as <-.
  apply find_some in E as [_ E]. unfold Backend.belongsTo in E.
  apply andb_true_iff in E as [E _]. apply Js_eqb_eq in E. exact E.
Qed.



(** After a task is stored under its id, looking the id up yields it. *)
Lemma lookup_store caller id t t' rs :
  Backend.lookup caller id rs = Some t ->
  Task.id t' = id ->
  Backend.lookup caller id (Backend.store caller id t' rs) = Some t'.
Proof.
  intros H Hid. unfold Backend.lookup, Backend.store in *.
  induction rs as [|r rs IH]; simpl in *; [discriminate|].
  destruct (Backend.belongsTo caller id r) eqn:E; simpl.
  - unfold Backend.belongsTo at 1. simpl.
    rewrite Hid, !Js_eqb_refl. reflexivity.
  - rewrite E. apply IH. exact H.
Qed.

Lemma replaceById_twice id t1 t2 tasks :
  Task.id t1 = id ->
  replaceById id t2 (replaceById id t1 tasks) = replaceById id t2 tasks.
Proof.
  intros H1. unfold replaceById. rewrite map_map. apply map_ext.
  intros x. destruct (Js.eqb (Task.id x) id) eqn:E.
  - rewrite H1, Js_eqb_refl. reflexivity.
  - rewrite E. reflexivity.
Qed.




(** The dashboard's toggle in front of the task resource. *)
Lemma handleToggleComplete_resolved session caller id t' s'
    (p : Page.t Backend.Server) :
  userId session = Some caller -> Js.truthy caller = true ->
  Backend.toggleComplete caller id (Page.world p) = (Backend.Ok t', s') ->
  handleToggleComplete session id p
  = (Returned tt,
     Page.mk (Dashboard.setTasks (replaceById id t') (Page.dash p))
             (Page.console p)
             (Page.calls p ++ [CallToggleComplete caller id]) s').
Proof.
  intros Hu Ht H. unfold handleToggleComplete.
  rewrite (requireUserId_present session _ Hu Ht).
  run_handler. simpl. rewrite H. reflexivity.
Qed.

(** The dashboard's create in front of the task resource, for fields within
    the bounds. *)
Lemma handleCreateTask_resolved session caller title description
    (p : Page.t Backend.Server) :
  userId session = Some caller -> Js.truthy caller = true ->
  Backend.validTitle title = true ->
  Backend.validDescription description = true ->
  let s := Page.world p in
  let t := Task.mk (Backend.decimal (Backend.nextId s)) title description false
                   (Backend.decimal (Backend.clock s))
                   (Backend.decimal (Backend.clock s)) in
  handleCreateTask session title description p
  = (Returned tt,
     Page.mk (Dashboard.mk (t :: Dashboard.tasks (Page.dash p))
                           (Dashboard.isLoading (Page.dash p))
                           (Dashboard.error (Page.dash p)) false None)
             (Page.console p)
             (Page.calls p
              ++ [CallCreateTask caller (TaskCreate.mk title (Some description))])
             (Backend.mkServer (Backend.mkRow t caller :: Backend.rows s)
                               (Backend.nextId s + 1) (Backend.clock s + 1))).
Proof.
  intros Hu Ht Hvt Hvd. unfold handleCreateTask.
  rewrite (requireUserId_present session _ Hu Ht).
  run_handler. simpl. unfold Backend.create. rewrite Hvt, Hvd. reflexivity.
Qed.

Lemma validTitle_bounds title :
  Js.truthy (Js.trim title) = true -> Js.length title <= 255 ->
  Backend.validTitle title = true.
Proof.
  intros H1 H2. unfold Backend.validTitle.
  apply andb_true_iff. split; [exact H1 | apply N.leb_le; exact H2].
Qed.

(** What the form sends for a title is a valid title when it is 1 to 255
    characters long: it is trimmed already. *)
Lemma validTitle_trimmed title :
  1 <= Js.length (Js.trim title) <= 255 ->
  Backend.validTitle (Js.trim title) = true.
Proof.
  intros [H1 H2]. apply validTitle_bounds; [|exact H2].
  rewrite trim_idempotent. apply Js_truthy_length. exact H1.
Qed.

Lemma validDescription_bounds description :
  (forall d, description = Some d -> Js.length d <= 10000) ->
  Backend.validDescription description = true.
Proof.
  intros H. destruct description as [d|]; simpl; [|reflexivity].
  apply N.leb_le. apply H. reflexivity.
Qed.

Lemma read_created caller t rs n c :
  Backend.read caller (Task.id t)
    (Backend.mkServer (Backend.mkRow t caller :: rs) n c)
  = (Backend.Ok t, Backend.mkServer (Backend.mkRow t caller :: rs) n c).
Proof.
  unfold Backend.read, Backend.lookup. simpl.
  unfold Backend.belongsTo. simpl. rewrite !Js_eqb_refl. reflexivity.
Qed.

(** C4 as it is stated fails at a blank title. Three spaces are a title of
    length 3, within 1 to 255, with a description of length 0: the create
    operation turns it down as a validation failure, since the title is
    empty after trimming, and [handleCreateTask] ends by throwing with the
    list as it was; the form does not even make the request, it sets
    "Title is required" and leaves the page untouched. *)
Lemma C4_blank_title_is_not_created :
  let title := Js.lit "   " in
  (1 <= Js.length title <= 255) /\
  Backend.create (User.id Sample.alice) title (Some []) Sample.server
  = (Backend.Err Backend.ValidationError, Sample.server) /\
  fst (handleCreateTask Sample.session title (Some []) Sample.page)
  = Threw (Backend.thrown Backend.ValidationError) /\
  Dashboard.tasks
    (Page.dash (snd (handleCreateTask Sample.session title (Some []) Sample.page)))
  = [Sample.milk] /\
  submitCreateForm Sample.session (TaskForm.mk title [] None, Sample.page)
  = (Returned tt,
     (TaskForm.mk title [] (Some (Js.lit "Title is required")), Sample.page)).
Proof. vm_compute. repeat split; discriminate. Qed.

(** C4, amended: with a user signed in, a title of at most 255 characters
    that is not empty after trimming, and a description that is null or of
    at most 10000 characters, create succeeds: [handleCreateTask] returns
    normally after one call of [taskApi.createTask] carrying exactly that
    title and description, and the task the server returns, which it puts
    in front of the list, has that title and that description unchanged (it
    is not completed, its two timestamps agree, and the server gives it back
    when it is read). The form reaches create with the values it derives
    from its fields, the trimmed title and the trimmed description or null
    when that is empty, and these are the values that make the round
    trip. *)
Theorem C4_create_round_trip
    (session : option Session) (u : UserId) (p : Page.t Backend.Server) :
  userId session = Some u ->
  Js.truthy u = true ->
  (forall (title : JsString) (description : option JsString),
     Js.truthy (Js.trim title) = true ->
     Js.length title <= 255 ->
     (forall d, description = Some d -> Js.length d <= 10000) ->
     exists (t : Task) (p' : Page.t Backend.Server),
       handleCreateTask session title description p = (Returned tt, p') /\
       Page.calls p'
       = Page.calls p
         ++ [CallCreateTask u (TaskCreate.mk title (Some description))] /\
       Dashboard.tasks (Page.dash p') = t :: Dashboard.tasks (Page.dash p) /\
       Dashboard.createError (Page.dash p') = None /\
       Task.title t = title /\
       Task.description t = description /\
       Task.completed t = false /\
       Task.created_at t = Task.updated_at t /\
       Backend.read u (Task.id t) (Page.world p')
       = (Backend.Ok t, Page.world p')) /\
  (forall form : TaskForm.state,
     1 <= Js.length (Js.trim (TaskForm.title form)) <= 255 ->
     Js.length (TaskForm.description form) <= 10000 ->
     exists (t : Task) (p' : Page.t Backend.Server),
       submitCreateForm session (form, p)
       = (Returned tt, (TaskForm.initial, p')) /\
       Dashboard.tasks (Page.dash p') = t :: Dashboard.tasks (Page.dash p) /\
       Task.title t = Js.trim (TaskForm.title form) /\
       Task.description t = Js.or_null (Js.trim (TaskForm.description form))).
Proof.
  intros Hu Ht. split.
  - intros title description Hnonblank Htitle Hdesc.
    pose proof (@handleCreateTask_resolved session u title description p Hu Ht
                  (@validTitle_bounds title Hnonblank Htitle)
                  (@validDescription_bounds description Hdesc))
      as Hrun.
    simpl in Hrun. eexists. eexists. split; [exact Hrun|]. simpl.
    repeat split; try reflexivity. apply read_created.
  - intros form Htitle Hdesc.
    assert (Hd : Backend.validDescription
                   (Js.or_null (Js.trim (TaskForm.description form))) = true).
    { unfold Js.or_null.
      destruct (Js.truthy (Js.trim (TaskForm.description form))); [|reflexivity].
      simpl. apply N.leb_le.
      pose proof (trim_length (TaskForm.description form)). lia. }
    pose proof (@handleCreateTask_resolved session u
                  (Js.trim (TaskForm.title form))
                  (Js.or_null (Js.trim (TaskForm.description form))) p Hu Ht
                  (@validTitle_trimmed _ Htitle) Hd) as Hrun.
    simpl in Hrun.
    unfold submitCreateForm, TaskForm.handleSubmit. simpl.
    assert (Hnonempty : Js.truthy (Js.trim (TaskForm.title form)) = true)
      by (apply Js_truthy_length; lia).
    assert (Hshort : (255 <? Js.length (Js.trim (TaskForm.title form))) = false)
      by (apply N.ltb_ge; lia).
    assert (Hfits : (10000 <? Js.length (TaskForm.description form)) = false)
      by (apply N.ltb_ge; lia).
    unfold bind at 1. unfold child at 1. simpl.
    rewrite Hnonempty, Hshort, Hfits. simpl.
    unfold try_catch, bind, parent, child. simpl. rewrite Hrun. simpl.
    eexists. eexists. split; [reflexivity|]. simpl.
    repeat split; reflexivity.
Qed.

(** Alice creates "Buy bread" from the handler, and " Buy bread " with a
    blank description from the form. *)
Lemma C4_create_round_trip_witness :
  (exists (t : Task) (p' : Page.t Backend.Server),
     handleCreateTask Sample.session (Js.lit "Buy bread")
                      (Some (Js.lit "two loaves")) Sample.page
     = (Returned tt, p') /\
     Dashboard.tasks (Page.dash p') = [t; Sample.milk] /\
     Task.title t = Js.lit "Buy bread" /\
     Task.description t = Some (Js.lit "two loaves")) /\
  (exists (t : Task) (p' : Page.t Backend.Server),
     submitCreateForm Sample.session
       (TaskForm.mk (Js.lit " Buy bread ") (Js.lit "  ") None, Sample.page)
     = (Returned tt, (TaskForm.initial, p')) /\
     Dashboard.tasks (Page.dash p') = [t; Sample.milk] /\
     Task.title t = Js.lit "Buy bread" /\
     Task.description t = None).
Proof.
  destruct (@C4_create_round_trip Sample.session (User.id Sample.alice)
              Sample.page eq_refl eq_refl) as [Hhandler Hform].
  split.
  - destruct (Hhandler (Js.lit "Buy bread") (Some (Js.lit "two loaves")))
      as (t & p' & Hrun & _ & Htasks & _ & Htitle & Hdesc & _).
    + reflexivity.
    + vm_compute. discriminate.
    + intros d H. injection H as <-. vm_compute. discriminate.
    + exists t, p'. repeat split; assumption.
  - destruct (Hform (TaskForm.mk (Js.lit " Buy bread ") (Js.lit "  ") None))
      as (t & p' & Hrun & Htasks & Htitle & Hdesc).
    + vm_compute. split; discriminate.
    + vm_compute. discriminate.
    + exists t, p'. repeat split; assumption.
Defined.

(** C5: for a task the caller owns, [toggleComplete] succeeds and returns
    the task with [completed] flipped; a second [toggleComplete] succeeds
    and returns it with [completed] back at its original value. On the
    dashboard of that user each of the two toggles returns normally and
    replaces the local entries of that id by the task the server returned,
    so after the second one they carry the original [completed] again. *)
Theorem C5_toggle_twice_restores_completed
    (session : option Session) (caller : UserId) (id : TaskId) (t : Task)
    (p : Page.t Backend.Server) :
  userId session = Some caller ->
  Js.truthy caller = true ->
  Backend.lookup caller id (Backend.rows (Page.world p)) = Some t ->
  exists (t1 t2 : Task) (p1 p2 : Page.t Backend.Server),
    Backend.toggleComplete caller id (Page.world p)
    = (Backend.Ok t1, Page.world p1) /\
    Task.completed t1 = negb (Task.completed t) /\
    Backend.toggleComplete caller id (Page.world p1)
    = (Backend.Ok t2, Page.world p2) /\
    Task.completed t2 = Task.completed t /\
    (Task.id t2, Task.title t2, Task.description t2, Task.created_at t2)
    = (Task.id t, Task.title t, Task.description t, Task.created_at t) /\
    handle session (Toggle id) p = (Returned tt, p1) /\
    Replaced id t1 (Dashboard.tasks (Page.dash p)) (Dashboard.tasks (Page.dash p1)) /\
    handle session (Toggle id) p1 = (Returned tt, p2) /\
    Replaced id t2 (Dashboard.tasks (Page.dash p)) (Dashboard.tasks (Page.dash p2)).
Proof.
  intros Hu Ht Hlook.
  set (s := Page.world p) in *.
  set (t1 := Backend.flip (Backend.decimal (Backend.clock s)) t).
  set (s1 := Backend.mkServer (Backend.store caller id t1 (Backend.rows s))
                              (Backend.nextId s) (Backend.clock s + 1)).
  set (t2 := Backend.flip (Backend.decimal (Backend.clock s1)) t1).
  set (s2 := Backend.mkServer (Backend.store caller id t2 (Backend.rows s1))
                              (Backend.nextId s1) (Backend.clock s1 + 1)).
  assert (Hid1 : Task.id t1 = id)
    by (apply (@lookup_id caller id (Backend.rows s) t Hlook)).
  assert (H1 : Backend.toggleComplete caller id s = (Backend.Ok t1, s1)).
  { unfold Backend.toggleComplete. rewrite Hlook. reflexivity. }
  assert (Hlook1 : Backend.lookup caller id (Backend.rows s1) = Some t1).
  { apply (@lookup_store caller id t t1 (Backend.rows s) Hlook Hid1). }
  assert (H2 : Backend.toggleComplete caller id s1 = (Backend.Ok t2, s2)).
  { unfold Backend.toggleComplete. rewrite Hlook1. reflexivity. }
  pose proof (@handleToggleComplete_resolved session caller id t1 s1 p Hu Ht H1)
    as Hrun1.
  set (p1 := Page.mk (Dashboard.setTasks (replaceById id t1) (Page.dash p))
                     (Page.console p)
                     (Page.calls p ++ [CallToggleComplete caller id]) s1) in *.
  pose proof (@handleToggleComplete_resolved session caller id t2 s2 p1 Hu Ht H2)
    as Hrun2.
  set (p2 := Page.mk (Dashboard.setTasks (replaceById id t2) (Page.dash p1))
                     (Page.console p1)
                     (Page.calls p1 ++ [CallToggleComplete caller id]) s2) in *.
  exists t1, t2, p1, p2.
  split; [exact H1|]. split; [reflexivity|].
  split; [exact H2|].
  split; [simpl; apply negb_involutive|].
  split; [reflexivity|].
  split; [exact Hrun1|].
  split; [apply replaceById_Replaced|].
  split; [exact Hrun2|].
  simpl. rewrite (@replaceById_twice id t1 t2 (Dashboard.tasks (Page.dash p)) Hid1).
  apply replaceById_Replaced.
Qed.

(** Alice toggles "Buy milk" twice. *)
Lemma C5_toggle_twice_witness :
  exists (t1 t2 : Task) (p1 p2 : Page.t Backend.Server),
    handle Sample.session (Toggle (Task.id Sample.milk)) Sample.page
    = (Returned tt, p1) /\
    handle Sample.session (Toggle (Task.id Sample.milk)) p1
    = (Returned tt, p2) /\
    Task.completed t1 = true /\
    Task.completed t2 = false /\
    Replaced (Task.id Sample.milk) t2 [Sample.milk] (Dashboard.tasks (Page.dash p2)).
Proof.
  destruct (@C5_toggle_twice_restores_completed
              Sample.session (User.id Sample.alice) (Task.id Sample.milk)
              Sample.milk Sample.page eq_refl eq_refl eq_refl)
    as (t1 & t2 & p1 & p2 & _ & Hc1 & _ & Hc2 & _ & Hrun1 & _ & Hrun2 & Hrep).
  exists t1, t2, p1, p2. repeat split; assumption.
Defined.

(** A signed-in user's request on the user's own collection reaches the
    operation, which is how the API client calls the back end. *)
Lemma serve_own caller op s :
  Backend.serve (Backend.mkRequest (Some caller) caller op) s
  = Backend.exec caller op s.
Proof. unfold Backend.serve. simpl. rewrite Js_eqb_refl. reflexivity. Qed.






(* ===================================================================== *)
(** * Further properties of the components *)
(* ===================================================================== *)

(** ** Loading the list: [fetchTasks] *)

Section FetchTasks.

Context {W : Type} {taskApi : TaskApi W}.
Variable session : option Session.

(** X1: when [taskApi.listTasks] resolves, [fetchTasks] returns with the
    local list replaced by the fetched one, whatever it held, with the
    loading flag down and the error string cleared; one call is recorded and
    nothing is logged. *)
Theorem fetchTasks_resolved (u : UserId) (p : Page.t W)
    (fetchedTasks : list Task) (w' : W) :
  userId session = Some u ->
  Js.truthy u = true ->
  listTasks u (Page.world p) = (Resolved fetchedTasks, w') ->
  fetchTasks session p
  = (Returned tt,
     Page.mk (Dashboard.mk fetchedTasks false None
                           (Dashboard.isCreating (Page.dash p))
                           (Dashboard.createError (Page.dash p)))
             (Page.console p)
             (Page.calls p ++ [CallListTasks u]) w').
Proof.
  intros Hu Ht H. unfold fetchTasks.
  rewrite (requireUserId_present session _ Hu Ht).
  run_handler. simpl. rewrite H. reflexivity.
Qed.

(** X2: when [taskApi.listTasks] rejects, [fetchTasks] still returns
    normally: the list keeps what it held, the error string is the fixed
    load message, the loading flag is down, the caught value is logged, and
    the task list renders the error box instead of the tasks. *)
Theorem fetchTasks_rejected (u : UserId) (p : Page.t W) (e : JsError) (w' : W) :
  userId session = Some u ->
  Js.truthy u = true ->
  listTasks u (Page.world p) = (Rejected e, w') ->
  let d' := Dashboard.mk (Dashboard.tasks (Page.dash p)) false
              (Some (Js.lit "Failed to load tasks. Please try again."))
              (Dashboard.isCreating (Page.dash p))
              (Dashboard.createError (Page.dash p)) in
  fetchTasks session p
  = (Returned tt,
     Page.mk d'
             (Page.console p ++ [(Js.lit "Failed to fetch tasks:", e)])
             (Page.calls p ++ [CallListTasks u]) w') /\
  TaskList (Dashboard.tasks d') (Dashboard.isLoading d') (Dashboard.error d')
  = ErrorBox (Js.lit "Failed to load tasks. Please try again.").
Proof.
  intros Hu Ht H. simpl. split; [|reflexivity]. unfold fetchTasks.
  rewrite (requireUserId_present session _ Hu Ht).
  run_handler. simpl. rewrite H. reflexivity.
Qed.

(** X3: [fetchTasks] never throws, whatever the session and the API do, and
    it never leaves the loading flag up once it has started: the flag is
    down after every run with a user id, and untouched without one. *)
Theorem fetchTasks_never_throws (p : Page.t W) :
  fst (fetchTasks session p) = Returned tt /\
  Dashboard.isLoading (Page.dash (snd (fetchTasks session p)))
  = (if Js.truthy_opt (userId session) then false
     else Dashboard.isLoading (Page.dash p)).
Proof.
  unfold fetchTasks, requireUserId.
  destruct (userId session) as [u|]; simpl; [|split; reflexivity].
  destruct (Js.truthy u); [|split; reflexivity].
  run_handler. simpl.
  destruct (listTasks u (Page.world p)) as [[l | e] w']; split; reflexivity.
Qed.

(** X4: without a user id [fetchTasks] does nothing at all, so the freshly
    mounted dashboard, whose loading flag starts up, keeps rendering the
    spinner. *)
Theorem fetchTasks_without_user (p : Page.t W) :
  Js.truthy_opt (userId session) = false ->
  fetchTasks session p = (Returned tt, p) /\
  (Page.dash p = Dashboard.initial ->
   let d := Page.dash (snd (fetchTasks session p)) in
   TaskList (Dashboard.tasks d) (Dashboard.isLoading d) (Dashboard.error d)
   = Spinner).
Proof.
  intros H.
  assert (Hrun : fetchTasks session p = (Returned tt, p))
    by (apply requireUserId_absent; exact H).
  split; [exact Hrun|]. rewrite Hrun. simpl. intros ->. reflexivity.
Qed.

End FetchTasks.

Lemma fetchTasks_resolved_witness :
  fetchTasks Sample.session
    (Page.mk Dashboard.initial [] [] Sample.server)
  = (Returned tt,
     Page.mk (Dashboard.mk [Sample.milk] false None false None) []
             [CallListTasks (User.id Sample.alice)] Sample.server).
Proof.
  apply (@fetchTasks_resolved Backend.Server Backend.api Sample.session (User.id Sample.alice)
           (Page.mk Dashboard.initial [] [] Sample.server)
           [Sample.milk] Sample.server);
    reflexivity.
Defined.

Lemma fetchTasks_rejected_witness :
  fst (fetchTasks Sample.session Offline.page) = Returned tt /\
  Dashboard.tasks (Page.dash (snd (fetchTasks Sample.session Offline.page)))
  = [Sample.milk] /\
  Dashboard.error (Page.dash (snd (fetchTasks Sample.session Offline.page)))
  = Some (Js.lit "Failed to load tasks. Please try again.").
Proof.
  destruct (@fetchTasks_rejected unit Offline.api Sample.session (User.id Sample.alice)
              Offline.page Offline.networkError tt eq_refl eq_refl eq_refl)
    as [Hrun _].
  rewrite Hrun. repeat split.
Defined.

Lemma fetchTasks_without_user_witness :
  Js.truthy_opt (userId (Some (Session.mk None))) = false /\
  TaskList (Dashboard.tasks Dashboard.initial)
           (Dashboard.isLoading Dashboard.initial)
           (Dashboard.error Dashboard.initial) = Spinner /\
  fetchTasks (Some (Session.mk None))
    (Page.mk Dashboard.initial [] [] Sample.server)
  = (Returned tt, Page.mk Dashboard.initial [] [] Sample.server).
Proof.
  split; [reflexivity|]. split; [reflexivity|].
  apply (proj1 (@fetchTasks_without_user Backend.Server Backend.api
                  (Some (Session.mk None))
                  (Page.mk Dashboard.initial [] [] Sample.server) eq_refl)).
Defined.

(** ** The mutation handlers of the dashboard, beyond reconciliation *)

Section Mutations.

Context {W : Type} {taskApi : TaskApi W}.
Variable session : option Session.

(** X5: when [taskApi.createTask] rejects with a value that is not null or
    undefined, the handler re-throws that value and the form's error becomes
    what [||] keeps of the response's [detail]: the detail itself when it is
    a non-empty string, the detail itself when it is a list of field errors,
    and the fixed text "Failed to create task" otherwise (no response, no
    body, no detail, or an empty string); the creating flag is down again
    and the list-level error string is not touched. *)
Theorem handleCreateTask_rejected_message
    (u : UserId) (title : JsString) (description : option JsString)
    (p : Page.t W) (e : JsError) (w' : W) :
  userId session = Some u ->
  Js.truthy u = true ->
  createTask u (TaskCreate.mk title (Some description)) (Page.world p)
  = (Rejected e, w') ->
  e <> JsError.Nullish ->
  let run := handleCreateTask session title description p in
  let d' := Page.dash (snd run) in
  fst run = Threw e /\
  Dashboard.createError d'
  = Some (match JsError.detail e with
          | Some (ErrData.Text (c :: detail)) => ErrData.Text (c :: detail)
          | Some (ErrData.Items fields) => ErrData.Items fields
          | _ => ErrData.Text (Js.lit "Failed to create task")
          end) /\
  Dashboard.isCreating d' = false /\
  Dashboard.error d' = Dashboard.error (Page.dash p).
Proof.
  intros Hu Ht H Hne. unfold handleCreateTask.
  rewrite (requireUserId_present session _ Hu Ht).
  unfold try_finally, try_catch, bind, await, setState, console_error,
    modify, throw, ret.
  cbn -[JsError.detail Js.lit]. rewrite H.
  destruct e as [| r |]; [contradiction Hne; reflexivity | |];
    cbn -[JsError.detail Js.lit]; repeat split;
    destruct (JsError.detail _) as [[[|c detail] | fields]|]; reflexivity.
Qed.

(** X6: with a user id, every run of [handleCreateTask] ends with the
    creating flag down, whether the call resolved or rejected and even when
    the catch block itself throws. The form's error is null afterwards
    exactly when the call resolved or the promise rejected with null or
    undefined; in that last case the handler leaves with the [TypeError]
    raised by reading [error.response]. *)
Theorem handleCreateTask_releases_flag
    (u : UserId) (title : JsString) (description : option JsString)
    (p : Page.t W) :
  userId session = Some u ->
  Js.truthy u = true ->
  let answer := fst (createTask u (TaskCreate.mk title (Some description))
                       (Page.world p)) in
  let run := handleCreateTask session title description p in
  Dashboard.isCreating (Page.dash (snd run)) = false /\
  (Dashboard.createError (Page.dash (snd run)) = None <->
   (exists t, answer = Resolved t) \/ answer = Rejected JsError.Nullish) /\
  ((exists t, answer = Resolved t) -> fst run = Returned tt) /\
  (answer = Rejected JsError.Nullish -> fst run = Threw JsError.TypeError).
Proof.
  intros Hu Ht. unfold handleCreateTask.
  rewrite (requireUserId_present session _ Hu Ht).
  unfold try_finally, try_catch, bind, await, setState, console_error,
    modify, throw, ret.
  cbn -[JsError.detail Js.lit ErrData.or_text].
  destruct (createTask u (TaskCreate.mk title (Some description)) (Page.world p))
    as [[t | e] w'].
  - cbn. split; [reflexivity|]. split; [|split].
    + split; [intros _; left; exists t; reflexivity | reflexivity].
    + reflexivity.
    + discriminate.
  - destruct e as [| r |]; cbn -[JsError.detail Js.lit ErrData.or_text];
      (split; [reflexivity|]); (split; [|split]).
    + split; [intros _; right; reflexivity | reflexivity].
    + intros [t Ht']. discriminate.
    + reflexivity.
    + split; [discriminate | intros [[t Ht'] | H']; discriminate].
    + intros [t Ht']. discriminate.
    + discriminate.
    + split; [discriminate | intros [[t Ht'] | H']; discriminate].
    + intros [t Ht']. discriminate.
    + discriminate.
Qed.

(** X7: none of the four mutation handlers ever clears the list-level error
    string: if one is showing before an action it is showing after it, also
    when the action succeeds, so the task list (not reloaded in between)
    keeps rendering the error box in place of the tasks. Only [fetchTasks]
    resets it. *)
Theorem handlers_never_clear_error (a : Action) (p : Page.t W) (m : JsString) :
  Dashboard.error (Page.dash p) = Some m ->
  Js.truthy m = true ->
  Dashboard.isLoading (Page.dash p) = false ->
  let d' := Page.dash (snd (handle session a p)) in
  exists m' : JsString,
    Dashboard.error d' = Some m' /\
    Js.truthy m' = true /\
    TaskList (Dashboard.tasks d') (Dashboard.isLoading d') (Dashboard.error d')
    = ErrorBox m'.
Proof.
  intros He Hm Hl.
  assert (Hbox : forall tasks, TaskList tasks false (Some m) = ErrorBox m).
  { intros tasks. unfold TaskList. destruct m; [discriminate | reflexivity]. }
  destruct a as [title description | taskId | taskId title description | taskId];
    simpl;
    unfold handleCreateTask, handleToggleComplete, handleUpdateTask,
      handleDeleteTask, requireUserId;
    (destruct (userId session) as [u|];
     [destruct (Js.truthy u)|]; simpl;
     try (exists m; rewrite He, Hl; repeat split; [exact Hm | apply Hbox]));
    run_handler; simpl.
  - unfold readDetail.
    destruct (createTask u (TaskCreate.mk title (Some description)) (Page.world p))
      as [[t | [| r |]] w']; simpl;
      exists m; rewrite He, Hl; repeat split; try exact Hm; apply Hbox.
  - destruct (toggleComplete u taskId (Page.world p)) as [[t | e] w']; simpl.
    + exists m. rewrite He, Hl. repeat split; [exact Hm | apply Hbox].
    + eexists. rewrite Hl. repeat split.
  - destruct (updateTask u taskId (TaskUpdate.mk (Some title) (Some description))
                (Page.world p)) as [[t | e] w']; simpl.
    + exists m. rewrite He, Hl. repeat split; [exact Hm | apply Hbox].
    + eexists. rewrite Hl. repeat split.
  - destruct (deleteTask u taskId (Page.world p)) as [[t | e] w']; simpl.
    + exists m. rewrite He, Hl. repeat split; [exact Hm | apply Hbox].
    + eexists. rewrite Hl. repeat split.
Qed.

(** X8: a successful action is silent: nothing is logged, the list-level
    error string and the loading flag are as before; create leaves the
    form's error empty and the creating flag down, the other three do not
    touch them. *)
Theorem success_is_silent
    (u : UserId) (a : Action) (p : Page.t W) (r : option Task) (w' : W) :
  userId session = Some u ->
  Js.truthy u = true ->
  perform u a (Page.world p) = (Resolved r, w') ->
  let p' := snd (handle session a p) in
  Page.console p' = Page.console p /\
  Dashboard.error (Page.dash p') = Dashboard.error (Page.dash p) /\
  Dashboard.isLoading (Page.dash p') = Dashboard.isLoading (Page.dash p) /\
  match a with
  | Create _ _ =>
      Dashboard.createError (Page.dash p') = None /\
      Dashboard.isCreating (Page.dash p') = false
  | _ =>
      Dashboard.createError (Page.dash p') = Dashboard.createError (Page.dash p) /\
      Dashboard.isCreating (Page.dash p') = Dashboard.isCreating (Page.dash p)
  end.
Proof.
  intros Hu Ht Hok.
  destruct a as [title description | taskId | taskId title description | taskId];
    simpl in Hok |- *.
  - unfold handleCreateTask. rewrite (requireUserId_present session _ Hu Ht).
    destruct (createTask u (TaskCreate.mk title (Some description)) (Page.world p))
      as [[t | e0] w0] eqn:E; [|discriminate].
    run_handler. simpl. rewrite E. simpl. repeat split.
  - unfold handleToggleComplete. rewrite (requireUserId_present session _ Hu Ht).
    destruct (toggleComplete u taskId (Page.world p)) as [[t | e0] w0] eqn:E;
      [|discriminate].
    run_handler. simpl. rewrite E. simpl. repeat split.
  - unfold handleUpdateTask. rewrite (requireUserId_present session _ Hu Ht).
    destruct (updateTask u taskId (TaskUpdate.mk (Some title) (Some description))
                (Page.world p)) as [[t | e0] w0] eqn:E; [|discriminate].
    run_handler. simpl. rewrite E. simpl. repeat split.
  - unfold handleDeleteTask. rewrite (requireUserId_present session _ Hu Ht).
    destruct (deleteTask u taskId (Page.world p)) as [[t | e0] w0] eqn:E;
      [|discriminate].
    run_handler. simpl. rewrite E. simpl. repeat split.
Qed.

(** The toggle and delete handlers of the dashboard never throw. *)
Lemma handleToggleComplete_returns (taskId : TaskId) (p : Page.t W) :
  fst (handleToggleComplete session taskId p) = Returned tt.
Proof.
  unfold handleToggleComplete, requireUserId.
  destruct (userId session) as [u|]; [destruct (Js.truthy u)|];
    try reflexivity.
  run_handler. simpl.
  destruct (toggleComplete u taskId (Page.world p)) as [[t | e] w']; reflexivity.
Qed.

Lemma handleDeleteTask_returns (taskId : TaskId) (p : Page.t W) :
  fst (handleDeleteTask session taskId p) = Returned tt.
Proof.
  unfold handleDeleteTask, requireUserId.
  destruct (userId session) as [u|]; [destruct (Js.truthy u)|];
    try reflexivity.
  run_handler. simpl.
  destruct (deleteTask u taskId (Page.world p)) as [[t | e] w']; reflexivity.
Qed.

End Mutations.

(** The three things [||] can keep: a string detail, a list detail, and
    the fixed text when the failure had no response. *)
Lemma handleCreateTask_rejected_message_witness :
  Dashboard.createError
    (Page.dash (snd (@handleCreateTask unit (Refusing.api Refusing.unavailable)
                       Sample.session (Js.lit "Buy bread") None Offline.page)))
  = Some (ErrData.Text (Js.lit "Service unavailable")) /\
  Dashboard.createError
    (Page.dash (snd (@handleCreateTask unit (Refusing.api Refusing.invalid)
                       Sample.session (Js.lit "Buy bread") None Offline.page)))
  = Some (ErrData.Items [Refusing.titleTooLong]) /\
  Dashboard.createError
    (Page.dash (snd (@handleCreateTask unit Offline.api
                       Sample.session (Js.lit "Buy bread") None Offline.page)))
  = Some (ErrData.Text (Js.lit "Failed to create task")).
Proof.
  split; [|split].
  - apply (proj1 (proj2 (@handleCreateTask_rejected_message
                    unit (Refusing.api Refusing.unavailable) Sample.session
                    (User.id Sample.alice) (Js.lit "Buy bread") None
                    Offline.page Refusing.unavailable tt
                    eq_refl eq_refl eq_refl ltac:(discriminate)))).
  - apply (proj1 (proj2 (@handleCreateTask_rejected_message
                    unit (Refusing.api Refusing.invalid) Sample.session
                    (User.id Sample.alice) (Js.lit "Buy bread") None
                    Offline.page Refusing.invalid tt
                    eq_refl eq_refl eq_refl ltac:(discriminate)))).
  - apply (proj1 (proj2 (@handleCreateTask_rejected_message
                    unit Offline.api Sample.session
                    (User.id Sample.alice) (Js.lit "Buy bread") None
                    Offline.page Offline.networkError tt
                    eq_refl eq_refl eq_refl ltac:(discriminate)))).
Defined.

(** The flag is down after a rejection with null, which also leaves the
    form's error null, and after a success. *)
Lemma handleCreateTask_releases_flag_witness :
  (Dashboard.isCreating
     (Page.dash (snd (@handleCreateTask unit (Refusing.api JsError.Nullish)
                        Sample.session (Js.lit "Buy bread") None Offline.page)))
   = false /\
   Dashboard.createError
     (Page.dash (snd (@handleCreateTask unit (Refusing.api JsError.Nullish)
                        Sample.session (Js.lit "Buy bread") None Offline.page)))
   = None) /\
  Dashboard.isCreating
    (Page.dash (snd (handleCreateTask Sample.session
                       (Js.lit "Buy bread") None Sample.page))) = false.
Proof.
  split.
  - destruct (@handleCreateTask_releases_flag unit (Refusing.api JsError.Nullish)
                Sample.session (User.id Sample.alice) (Js.lit "Buy bread") None
                Offline.page eq_refl eq_refl) as (Hflag & Hnull & _).
    split; [exact Hflag|]. apply Hnull. right. reflexivity.
  - apply (proj1 (@handleCreateTask_releases_flag Backend.Server Backend.api
                    Sample.session (User.id Sample.alice) (Js.lit "Buy bread")
                    None Sample.page eq_refl eq_refl)).
Defined.

(** A failed load left its message; Alice's toggle then succeeds, and the
    error box is still what the list shows. *)
Lemma handlers_never_clear_error_witness :
  let stale := Page.mk (Dashboard.mk [Sample.milk] false
                          (Some (Js.lit "Failed to load tasks. Please try again."))
                          false None) [] [] Sample.server in
  let d' := Page.dash (snd (handle Sample.session
                              (Toggle (Task.id Sample.milk)) stale)) in
  exists m' : JsString,
    Dashboard.error d' = Some m' /\ Js.truthy m' = true /\
    TaskList (Dashboard.tasks d') (Dashboard.isLoading d') (Dashboard.error d')
    = ErrorBox m'.
Proof.
  intros stale.
  apply (@handlers_never_clear_error Backend.Server Backend.api Sample.session
           (Toggle (Task.id Sample.milk)) stale
           (Js.lit "Failed to load tasks. Please try again."));
    reflexivity.
Defined.

Lemma success_is_silent_witness :
  let p' := snd (handle Sample.session (Toggle (Task.id Sample.milk))
                        Sample.page) in
  Page.console p' = [] /\ Dashboard.error (Page.dash p') = None.
Proof.
  destruct (@success_is_silent Backend.Server Backend.api Sample.session
              (User.id Sample.alice) (Toggle (Task.id Sample.milk)) Sample.page
              (Some (Backend.flip (Js.lit "103") Sample.milk))
              (Backend.mkServer
                 [ Backend.mkRow Sample.call (User.id Sample.bob);
                   Backend.mkRow (Backend.flip (Js.lit "103") Sample.milk)
                                 (User.id Sample.alice) ]
                 3 104)
              eq_refl eq_refl eq_refl) as (Hc & He & _).
  split; assumption.
Defined.

(** ** The local list under [replaceById] and [removeById] *)

Lemma replaceById_keeps_ids taskId updated prev :
  Task.id updated = taskId ->
  map Task.id (replaceById taskId updated prev) = map Task.id prev.
Proof.
  intros H. unfold replaceById. rewrite map_map. apply map_ext_in.
  intros x _. destruct (Js.eqb (Task.id x) taskId) eqn:E; [|reflexivity].
  apply Js_eqb_eq in E. congruence.
Qed.

(** An id that is in no entry: replacing changes nothing. *)
Lemma replaceById_absent taskId updated prev :
  Forall (fun t => Task.id t <> taskId) prev ->
  replaceById taskId updated prev = prev.
Proof.
  unfold replaceById. induction 1 as [|x prev Hx _ IH]; simpl; [reflexivity|].
  apply Js_eqb_neq in Hx. rewrite Hx, IH. reflexivity.
Qed.

Lemma removeById_absent taskId prev :
  Forall (fun t => Task.id t <> taskId) prev ->
  removeById taskId prev = prev.
Proof.
  unfold removeById. induction 1 as [|x prev Hx _ IH]; simpl; [reflexivity|].
  apply Js_eqb_neq in Hx. rewrite Hx. simpl. rewrite IH. reflexivity.
Qed.

(** After a removal no entry carries the id. *)
Lemma removeById_gone taskId prev :
  Forall (fun t => Task.id t <> taskId) (removeById taskId prev).
Proof.
  unfold removeById. apply Forall_forall. intros x Hin.
  apply filter_In in Hin as [_ H]. apply negb_true_iff in H.
  apply Js_eqb_neq. exact H.
Qed.

Lemma removeById_ids taskId prev :
  map Task.id (removeById taskId prev)
  = filter (fun i => negb (Js.eqb i taskId)) (map Task.id prev).
Proof.
  unfold removeById. induction prev as [|x prev IH]; simpl; [reflexivity|].
  destruct (Js.eqb (Task.id x) taskId); simpl; rewrite IH; reflexivity.
Qed.

(** X10: once a task is removed from the local list, a later replacement
    for the same id has no effect, so a toggle or update answer cannot bring a
    deleted entry back; and removing the same id again changes nothing. *)
Theorem removed_task_stays_removed
    (taskId : TaskId) (updated : Task) (prev : list Task) :
  replaceById taskId updated (removeById taskId prev) = removeById taskId prev /\
  removeById taskId (removeById taskId prev) = removeById taskId prev /\
  Forall (fun t => Task.id t <> taskId) (removeById taskId prev).
Proof.
  pose proof (removeById_gone taskId prev) as H.
  split; [apply replaceById_absent; exact H|].
  split; [apply removeById_absent; exact H | exact H].
Qed.

Section LocalList.

Context {W : Type} {taskApi : TaskApi W}.
Variable session : option Session.

(** The list after a successful action, as the handler computes it. *)
Lemma handle_resolved_tasks
    (u : UserId) (a : Action) (p : Page.t W) (r : option Task) (w' : W) :
  userId session = Some u ->
  Js.truthy u = true ->
  perform u a (Page.world p) = (Resolved r, w') ->
  Dashboard.tasks (Page.dash (snd (handle session a p)))
  = match a, r with
    | Create _ _, Some t => t :: Dashboard.tasks (Page.dash p)
    | Toggle taskId, Some t | Update taskId _ _, Some t =>
        replaceById taskId t (Dashboard.tasks (Page.dash p))
    | Delete taskId, _ => removeById taskId (Dashboard.tasks (Page.dash p))
    | _, None => Dashboard.tasks (Page.dash p)
    end.
Proof.
  intros Hu Ht Hok.
  destruct a as [title description | taskId | taskId title description | taskId];
    simpl in Hok |- *.
  - unfold handleCreateTask. rewrite (requireUserId_present session _ Hu Ht).
    destruct (createTask u (TaskCreate.mk title (Some description)) (Page.world p))
      as [[t | e0] w0] eqn:E; [|discriminate].
    injection Hok as <- <-. run_handler. simpl. rewrite E. reflexivity.
  - unfold handleToggleComplete. rewrite (requireUserId_present session _ Hu Ht).
    destruct (toggleComplete u taskId (Page.world p)) as [[t | e0] w0] eqn:E;
      [|discriminate].
    injection Hok as <- <-. run_handler. simpl. rewrite E. reflexivity.
  - unfold handleUpdateTask. rewrite (requireUserId_present session _ Hu Ht).
    destruct (updateTask u taskId (TaskUpdate.mk (Some title) (Some description))
                (Page.world p)) as [[t | e0] w0] eqn:E; [|discriminate].
    injection Hok as <- <-. run_handler. simpl. rewrite E. reflexivity.
  - unfold handleDeleteTask. rewrite (requireUserId_present session _ Hu Ht).
    destruct (deleteTask u taskId (Page.world p)) as [[t | e0] w0] eqn:E;
      [|discriminate].
    injection Hok as <- <-. run_handler. simpl. rewrite E. reflexivity.
Qed.

(** X9: the ids of the local list stay pairwise distinct under every
    successful action, provided the server answers as a task resource does:
    a created task comes with an id the list does not hold yet, and a
    toggled or updated task comes back under the id that was asked for. *)
Theorem local_ids_stay_distinct
    (u : UserId) (a : Action) (p : Page.t W) (r : option Task) (w' : W) :
  userId session = Some u ->
  Js.truthy u = true ->
  perform u a (Page.world p) = (Resolved r, w') ->
  match a, r with
  | Create _ _, Some t => ~ In (Task.id t) (map Task.id (Dashboard.tasks (Page.dash p)))
  | Toggle taskId, Some t | Update taskId _ _, Some t => Task.id t = taskId
  | _, _ => True
  end ->
  NoDup (map Task.id (Dashboard.tasks (Page.dash p))) ->
  NoDup (map Task.id (Dashboard.tasks (Page.dash (snd (handle session a p))))).
Proof.
  intros Hu Ht Hok Hans Hnd.
  rewrite (handle_resolved_tasks a p Hu Ht Hok).
  destruct a as [title description | taskId | taskId title description | taskId];
    destruct r as [t|]; simpl; try exact Hnd.
  - constructor; assumption.
  - rewrite (@replaceById_keeps_ids taskId t _ Hans). exact Hnd.
  - rewrite (@replaceById_keeps_ids taskId t _ Hans). exact Hnd.
  - rewrite removeById_ids. apply NoDup_filter. exact Hnd.
  - rewrite removeById_ids. apply NoDup_filter. exact Hnd.
Qed.

(** X11: a successful toggle, update or delete of a task that is in no entry
    of the local list leaves the list exactly as it is: the returned task is
    dropped, never inserted. *)
Theorem action_on_absent_task_keeps_list
    (u : UserId) (a : Action) (taskId : TaskId) (p : Page.t W)
    (r : option Task) (w' : W) :
  userId session = Some u ->
  Js.truthy u = true ->
  namedTask a = Some taskId ->
  Forall (fun t => Task.id t <> taskId) (Dashboard.tasks (Page.dash p)) ->
  perform u a (Page.world p) = (Resolved r, w') ->
  Dashboard.tasks (Page.dash (snd (handle session a p)))
  = Dashboard.tasks (Page.dash p).
Proof.
  intros Hu Ht Hname Habs Hok.
  rewrite (handle_resolved_tasks a p Hu Ht Hok).
  destruct a as [title description | id | id title description | id];
    simpl in Hname; try discriminate; injection Hname as ->.
  - destruct r; [apply replaceById_absent; exact Habs | reflexivity].
  - destruct r; [apply replaceById_absent; exact Habs | reflexivity].
  - apply removeById_absent. exact Habs.
Qed.

End LocalList.

Lemma local_ids_stay_distinct_witness :
  NoDup (map Task.id
           (Dashboard.tasks
              (Page.dash (snd (handle Sample.session
                                 (Create (Js.lit "Buy bread") None)
                                 Sample.page))))).
Proof.
  apply (@local_ids_stay_distinct Backend.Server Backend.api Sample.session
           (User.id Sample.alice) (Create (Js.lit "Buy bread") None) Sample.page
           (Some (Task.mk (Js.lit "3") (Js.lit "Buy bread") None false
                          (Js.lit "103") (Js.lit "103")))
           (Backend.mkServer
              (Backend.mkRow (Task.mk (Js.lit "3") (Js.lit "Buy bread") None
                                      false (Js.lit "103") (Js.lit "103"))
                             (User.id Sample.alice)
               :: Backend.rows Sample.server) 4 104)).
  - reflexivity.
  - reflexivity.
  - reflexivity.
  - simpl. intros [H | []]. discriminate H.
  - simpl. constructor; [intros [] | constructor].
Defined.

(** Alice's list shows only "Water plants"; her toggle of "Buy milk", which
    the server knows, succeeds and the list stays as it is. *)
Lemma action_on_absent_task_witness :
  let plants := Task.mk (Js.lit "7") (Js.lit "Water plants") None false
                        (Js.lit "90") (Js.lit "90") in
  let p := Page.mk (Dashboard.mk [plants] false None false None) [] []
                   Sample.server in
  Dashboard.tasks (Page.dash (snd (handle Sample.session
                                     (Toggle (Task.id Sample.milk)) p)))
  = [plants].
Proof.
  intros plants p.
  apply (@action_on_absent_task_keeps_list Backend.Server Backend.api
           Sample.session (User.id Sample.alice)
           (Toggle (Task.id Sample.milk)) (Task.id Sample.milk) p
           (Some (Backend.flip (Js.lit "103") Sample.milk))
           (Backend.mkServer
              [ Backend.mkRow Sample.call (User.id Sample.bob);
                Backend.mkRow (Backend.flip (Js.lit "103") Sample.milk)
                              (User.id Sample.alice) ]
              3 104)).
  - reflexivity.
  - reflexivity.
  - reflexivity.
  - constructor; [discriminate | constructor].
  - reflexivity.
Defined.

(** ** The create form *)

Section CreateForm.

Context {P : Type}.
Variable onSubmit : JsString -> option JsString -> M P unit.

Lemma TaskForm_handleSubmit_valid (form : TaskForm.state) (p : P) :
  1 <= Js.length (Js.trim (TaskForm.title form)) <= 255 ->
  Js.length (TaskForm.description form) <= 10000 ->
  TaskForm.handleSubmit onSubmit form (form, p)
  = let r := onSubmit (Js.trim (TaskForm.title form))
                      (Js.or_null (Js.trim (TaskForm.description form))) p in
    (Returned tt,
     (match fst r with
      | Returned _ => TaskForm.initial
      | Threw _ => TaskForm.setLocalError None form
      end, snd r)).
Proof.
  intros Htitle Hdesc.
  assert (Hnonempty : Js.truthy (Js.trim (TaskForm.title form)) = true)
    by (apply Js_truthy_length; lia).
  assert (Hshort : (255 <? Js.length (Js.trim (TaskForm.title form))) = false)
    by (apply N.ltb_ge; lia).
  assert (Hfits : (10000 <? Js.length (TaskForm.description form)) = false)
    by (apply N.ltb_ge; lia).
  unfold TaskForm.handleSubmit. unfold bind at 1. unfold child at 1. simpl.
  rewrite Hnonempty, Hshort, Hfits. simpl.
  unfold try_catch, bind, parent, child, ret. simpl.
  destruct (onSubmit _ _ p) as [[[] | e] p']; reflexivity.
Qed.

(** X12: a submit that passes validation runs [onSubmit] once, with the
    trimmed title and with the trimmed description or null; when [onSubmit]
    returns, both fields are cleared, and when it throws, the thrown value is
    swallowed and the fields keep what the user typed. *)
Theorem TaskForm_handleSubmit_accepts (form : TaskForm.state) (p : P) :
  1 <= Js.length (Js.trim (TaskForm.title form)) <= 255 ->
  Js.length (TaskForm.description form) <= 10000 ->
  let r := onSubmit (Js.trim (TaskForm.title form))
                    (Js.or_null (Js.trim (TaskForm.description form))) p in
  let run := TaskForm.handleSubmit onSubmit form (form, p) in
  fst run = Returned tt /\
  snd (snd run) = snd r /\
  TaskForm.localError (fst (snd run)) = None /\
  match fst r with
  | Returned _ =>
      TaskForm.title (fst (snd run)) = [] /\
      TaskForm.description (fst (snd run)) = []
  | Threw _ =>
      TaskForm.title (fst (snd run)) = TaskForm.title form /\
      TaskForm.description (fst (snd run)) = TaskForm.description form
  end.
Proof.
  intros Htitle Hdesc. simpl.
  rewrite (TaskForm_handleSubmit_valid form p Htitle Hdesc). simpl.
  destruct (fst (onSubmit _ _ p)); repeat split.
Qed.

(** X13: [handleSubmit] never throws, whatever the fields hold and whatever
    [onSubmit] does. *)
Theorem TaskForm_handleSubmit_never_throws (form : TaskForm.state) (p : P) :
  fst (TaskForm.handleSubmit onSubmit form (form, p)) = Returned tt.
Proof.
  unfold TaskForm.handleSubmit. unfold bind at 1. unfold child at 1. simpl.
  destruct (Js.truthy (Js.trim (TaskForm.title form))); simpl; [|reflexivity].
  destruct (255 <? Js.length (Js.trim (TaskForm.title form))); [reflexivity|].
  destruct (10000 <? Js.length (TaskForm.description form)); [reflexivity|].
  unfold try_catch, bind, parent, child, ret. simpl.
  destruct (onSubmit _ _ p) as [[[] | e] p']; reflexivity.
Qed.

(** X15: with the submit button enabled and the two fields within the
    [maxLength] of their inputs (255 and 10000), none of the three
    validation branches is taken: the submit reaches [onSubmit] and no
    inline error is set. *)
Theorem TaskForm_enabled_submit_passes_validation
    (form : TaskForm.state) (isSubmitting : bool) (p : P) :
  TaskForm.submitDisabled form isSubmitting = false ->
  Js.length (TaskForm.title form) <= 255 ->
  Js.length (TaskForm.description form) <= 10000 ->
  let run := TaskForm.handleSubmit onSubmit form (form, p) in
  snd (snd run)
  = snd (onSubmit (Js.trim (TaskForm.title form))
                  (Js.or_null (Js.trim (TaskForm.description form))) p) /\
  TaskForm.localError (fst (snd run)) = None.
Proof.
  intros Hbtn Htitle Hdesc.
  unfold TaskForm.submitDisabled in Hbtn.
  apply orb_false_iff in Hbtn as [_ Hbtn]. apply negb_false_iff in Hbtn.
  apply Js_truthy_length in Hbtn.
  pose proof (trim_length (TaskForm.title form)) as Hle.
  assert (Hvalid : 1 <= Js.length (Js.trim (TaskForm.title form)) <= 255) by lia.
  simpl. rewrite (TaskForm_handleSubmit_valid form p Hvalid Hdesc). simpl.
  destruct (fst (onSubmit _ _ p)); split; reflexivity.
Qed.

(** X16: after a submit that validation turns down, the inline message is
    the one of the first failed test ("Title is required" for a blank title,
    else the title length message, else the description length message), it
    is stored in [localError], and it is what the form shows for every value
    of the parent's [error] prop, a string, a list or null: [localError]
    takes precedence over the parent's error. *)
Theorem TaskForm_validation_message_wins (form : TaskForm.state) (p : P) :
  Js.length (Js.trim (TaskForm.title form)) = 0 \/
  255 < Js.length (Js.trim (TaskForm.title form)) \/
  10000 < Js.length (TaskForm.description form) ->
  let form' := fst (snd (TaskForm.handleSubmit onSubmit form (form, p))) in
  let msg :=
    if Js.length (Js.trim (TaskForm.title form)) =? 0
    then Js.lit "Title is required"
    else if 255 <? Js.length (Js.trim (TaskForm.title form))
    then Js.lit "Title must be 255 characters or less"
    else Js.lit "Description must be 10000 characters or less" in
  TaskForm.localError form' = Some msg /\
  forall error : option ErrData.value,
    TaskForm.displayError form' error = Some (ErrData.Text msg) /\
    TaskForm.errorView (TaskForm.displayError form' error)
    = TaskForm.ErrorText msg.
Proof.
  intros H. unfold TaskForm.handleSubmit, bind, child. simpl.
  destruct (Js.truthy (Js.trim (TaskForm.title form))) eqn:Et; simpl.
  - apply Js_truthy_length in Et.
    assert (Hz : (Js.length (Js.trim (TaskForm.title form)) =? 0) = false)
      by (apply N.eqb_neq; lia).
    rewrite Hz.
    destruct (255 <? Js.length (Js.trim (TaskForm.title form))) eqn:El.
    + split; [reflexivity|]. intros error. split; reflexivity.
    + apply N.ltb_ge in El.
      assert (Hd : (10000 <? Js.length (TaskForm.description form)) = true)
        by (apply N.ltb_lt; destruct H as [H | [H | H]]; lia).
      rewrite Hd. split; [reflexivity|]. intros error. split; reflexivity.
  - assert (Hz : (Js.length (Js.trim (TaskForm.title form)) =? 0) = true).
    { destruct (Js.trim (TaskForm.title form)); [reflexivity | discriminate]. }
    rewrite Hz. split; [reflexivity|]. intros error. split; reflexivity.
Qed.

End CreateForm.

(** X14: submitted while no user id is in the session, a valid form makes no
    request and adds no task, since [handleCreateTask] returns at once, yet
    the form takes the normal return for success and clears both fields:
    the page is what it was and what was typed is gone. *)
Theorem submitCreateForm_without_user
    {W : Type} {taskApi : TaskApi W} (session : option Session)
    (form : TaskForm.state) (p : Page.t W) :
  Js.truthy_opt (userId session) = false ->
  1 <= Js.length (Js.trim (TaskForm.title form)) <= 255 ->
  Js.length (TaskForm.description form) <= 10000 ->
  submitCreateForm session (form, p) = (Returned tt, (TaskForm.initial, p)).
Proof.
  intros Hu Htitle Hdesc. unfold submitCreateForm. simpl.
  rewrite (TaskForm_handleSubmit_valid (handleCreateTask session) form p
             Htitle Hdesc).
  simpl. unfold handleCreateTask.
  rewrite (requireUserId_absent session _ p Hu). reflexivity.
Qed.

Lemma TaskForm_handleSubmit_accepts_witness :
  let form := TaskForm.mk (Js.lit " Buy bread ") (Js.lit "two loaves") None in
  let run := TaskForm.handleSubmit (@handleCreateTask unit Offline.api Sample.session)
               form (form, Offline.page) in
  fst run = Returned tt /\
  TaskForm.title (fst (snd run)) = Js.lit " Buy bread " /\
  TaskForm.description (fst (snd run)) = Js.lit "two loaves".
Proof.
  intros form.
  destruct (@TaskForm_handleSubmit_accepts _
              (@handleCreateTask unit Offline.api Sample.session)
              form Offline.page) as (Hret & _ & _ & Hkept).
  - vm_compute. split; discriminate.
  - vm_compute. discriminate.
  - destruct Hkept as [Ht Hd]. repeat split; assumption.
Defined.

Lemma TaskForm_enabled_submit_witness :
  let form := TaskForm.mk (Js.lit "Buy bread") [] None in
  TaskForm.localError
    (fst (snd (TaskForm.handleSubmit (handleCreateTask Sample.session)
                 form (form, Sample.page)))) = None.
Proof.
  intros form.
  apply (proj2 (@TaskForm_enabled_submit_passes_validation _
                  (handleCreateTask Sample.session) form false Sample.page
                  eq_refl
                  ltac:(vm_compute; discriminate)
                  ltac:(vm_compute; discriminate))).
Defined.

(** A blank title while the parent still passes a list-valued error down:
    the form shows "Title is required". *)
Lemma TaskForm_validation_message_wins_witness :
  let form := TaskForm.mk (Js.lit "   ") [] None in
  TaskForm.errorView
    (TaskForm.displayError
       (fst (snd (TaskForm.handleSubmit (handleCreateTask Sample.session)
                    form (form, Sample.page))))
       (Some (ErrData.Items [Refusing.titleTooLong])))
  = TaskForm.ErrorText (Js.lit "Title is required").
Proof.
  intros form.
  apply (proj2 (@TaskForm_validation_message_wins _
                  (handleCreateTask Sample.session) form Sample.page
                  (or_introl eq_refl))
               (Some (ErrData.Items [Refusing.titleTooLong]))).
Defined.

Lemma submitCreateForm_without_user_witness :
  submitCreateForm None
    (TaskForm.mk (Js.lit "Buy bread") (Js.lit "two loaves") None, Sample.page)
  = (Returned tt, (TaskForm.initial, Sample.page)).
Proof.
  apply (@submitCreateForm_without_user Backend.Server Backend.api None
           (TaskForm.mk (Js.lit "Buy bread") (Js.lit "two loaves") None)
           Sample.page eq_refl).
  - vm_compute. split; discriminate.
  - vm_compute. discriminate.
Defined.

(** ** The task row *)

(** X17: cancelling discards the edits: whatever was typed into the two
    fields after the editor was opened, [handleCancelEdit] leaves the row
    out of edit mode with both fields back at the task's title and
    description (the empty string for none) and the two busy flags as they
    were; from a freshly mounted row that is the initial state again. *)
Theorem TaskItem_cancel_discards_edits
    (task : Task) (row : TaskItem.state) (typedTitle typedDescription : JsString) :
  TaskItem.handleCancelEdit task
    (TaskItem.setEditDescription typedDescription
       (TaskItem.setEditTitle typedTitle
          (TaskItem.handleStartEdit task row)))
  = TaskItem.mk false (Task.title task) (TaskItem.descriptionOrEmpty task)
                (TaskItem.isLoading row) (TaskItem.isDeleting row) /\
  TaskItem.handleCancelEdit task
    (TaskItem.setEditDescription typedDescription
       (TaskItem.setEditTitle typedTitle
          (TaskItem.handleStartEdit task (TaskItem.initial task))))
  = TaskItem.initial task.
Proof. split; reflexivity. Qed.

(** A row is rendered exactly when the list is not loading, shows no
    error, and holds a task of that id. *)
Lemma rowMounted_inv (d : Dashboard.t) (taskId : TaskId) :
  rowMounted d taskId = true ->
  Dashboard.isLoading d = false /\
  Js.truthy_opt (Dashboard.error d) = false /\
  existsb (fun t => Js.eqb (Task.id t) taskId) (Dashboard.tasks d) = true.
Proof.
  unfold rowMounted, TaskList.
  destruct (Dashboard.isLoading d); [discriminate|].
  destruct (Dashboard.error d) as [[|c m]|]; try discriminate;
    (destruct (Dashboard.tasks d); [discriminate|]);
    intros H; repeat split; exact H.
Qed.

Lemma rowMounted_intro (d : Dashboard.t) (taskId : TaskId) :
  Dashboard.isLoading d = false ->
  Js.truthy_opt (Dashboard.error d) = false ->
  existsb (fun t => Js.eqb (Task.id t) taskId) (Dashboard.tasks d) = true ->
  rowMounted d taskId = true.
Proof.
  unfold rowMounted, TaskList. intros -> He Hin.
  destruct (Dashboard.error d) as [[|c m]|]; try discriminate;
    (destruct (Dashboard.tasks d); [discriminate | exact Hin]).
Qed.

(** Replacing a task by one of the same id keeps its row in the list. *)
Lemma replaceById_keeps_row taskId updated prev :
  Task.id updated = taskId ->
  existsb (fun t => Js.eqb (Task.id t) taskId) prev = true ->
  existsb (fun t => Js.eqb (Task.id t) taskId) (replaceById taskId updated prev)
  = true.
Proof.
  intros Hid. unfold replaceById.
  induction prev as [|x prev IH]; simpl; [discriminate|].
  destruct (Js.eqb (Task.id x) taskId) eqn:E; simpl.
  - intros _. rewrite Hid, Js_eqb_refl. reflexivity.
  - rewrite E. exact IH.
Qed.

Section Row.

Context {W : Type} {taskApi : TaskApi W}.
Variable session : option Session.
Variable task : Task.

(** X18: the completion toggle of a row on the dashboard never throws and
    always releases the row: whatever the API does, the run returns, the
    row's loading flag is down and its other cells are untouched, and the
    page is what [handleToggleComplete] made of it. *)
Theorem toggleTaskRow_releases (row : TaskItem.state) (p : Page.t W) :
  toggleTaskRow session task (row, p)
  = (Returned tt,
     (TaskItem.setIsLoading false row,
      snd (handleToggleComplete session (Task.id task) p))).
Proof.
  unfold toggleTaskRow, TaskItem.handleToggleComplete.
  unfold bind, try_finally, parent, child. simpl.
  pose proof (handleToggleComplete_returns session (Task.id task) p) as H.
  destruct (handleToggleComplete session (Task.id task) p) as [o p'].
  simpl in H. subst o. reflexivity.
Qed.

(** X19: deleting a row: when the confirmation is declined nothing happens
    at all, neither to the row nor to the page, so no request is made; when
    it is accepted the run never throws, the row's deleting flag is down
    afterwards, and the page is what [handleDeleteTask] made of it. *)
Theorem deleteTaskRow_confirmation (row : TaskItem.state) (p : Page.t W) :
  deleteTaskRow session task false (row, p) = (Returned tt, (row, p)) /\
  deleteTaskRow session task true (row, p)
  = (Returned tt,
     (TaskItem.setIsDeleting false row,
      snd (handleDeleteTask session (Task.id task) p))).
Proof.
  split; [reflexivity|].
  unfold deleteTaskRow, TaskItem.handleDelete.
  unfold bind, try_finally, parent, child. simpl.
  pose proof (handleDeleteTask_returns session (Task.id task) p) as H.
  destruct (handleDeleteTask session (Task.id task) p) as [o p'].
  simpl in H. subst o. reflexivity.
Qed.

(** X20: saving an edit of a rendered row whose trimmed title is not empty,
    with a user signed in. When [taskApi.updateTask] resolves with a task
    of the same id, [handleSaveEdit] returns and the row, still rendered, is
    out of edit mode with its loading flag down and the two fields as they
    were typed. When it rejects, the rejection comes out of
    [handleSaveEdit] as a thrown value (the row has no catch), and since
    [handleUpdateTask] has set the list-level error, the task list renders
    the error box in place of the rows: the row is unmounted, and its edit
    mode and what was typed are gone. *)
Theorem saveTaskEdit_outcome (u : UserId) (row : TaskItem.state) (p : Page.t W) :
  userId session = Some u ->
  Js.truthy u = true ->
  1 <= Js.length (Js.trim (TaskItem.editTitle row)) ->
  rowMounted (Page.dash p) (Task.id task) = true ->
  let answer :=
    fst (updateTask u (Task.id task)
           (TaskUpdate.mk
              (Some (Js.trim (TaskItem.editTitle row)))
              (Some (Js.or_null (Js.trim (TaskItem.editDescription row)))))
           (Page.world p)) in
  let run := saveTaskEdit session task (row, p) in
  let d' := Page.dash (snd (snd run)) in
  match answer with
  | Resolved updated =>
      fst run = Returned tt /\
      (Task.id updated = Task.id task ->
       rowAfter task (snd run)
       = Some (TaskItem.mk false (TaskItem.editTitle row)
                           (TaskItem.editDescription row) false
                           (TaskItem.isDeleting row)))
  | Rejected e =>
      fst run = Threw e /\
      rowAfter task (snd run) = None /\
      TaskList (Dashboard.tasks d') (Dashboard.isLoading d') (Dashboard.error d')
      = ErrorBox (Js.lit "Failed to update task. Please try again.")
  end.
Proof.
  intros Hu Ht Hlen Hmounted. apply Js_truthy_length in Hlen.
  apply rowMounted_inv in Hmounted as (Hload & Herr & Hin).
  unfold saveTaskEdit, TaskItem.handleSaveEdit. simpl. rewrite Hlen. simpl.
  unfold handleUpdateTask. rewrite (requireUserId_present session _ Hu Ht).
  unfold bind, try_finally, try_catch, parent, child, await, setState,
    console_error, modify, throw, ret. simpl.
  destruct (updateTask u (Task.id task) _ (Page.world p)) as [[t | e] w'];
    simpl.
  - split; [reflexivity|]. intros Hid. unfold rowAfter. simpl.
    rewrite rowMounted_intro; [reflexivity | exact Hload | exact Herr |].
    simpl. apply (replaceById_keeps_row _ _ Hid Hin).
  - split; [reflexivity|]. unfold rowAfter, rowMounted. simpl.
    rewrite Hload. split; reflexivity.
Qed.

(** X22: saved while no user id is in the session, an edit makes no request,
    since [handleUpdateTask] returns at once, yet the row takes the normal
    return for success and leaves edit mode: the page and the task are what
    they were. *)
Theorem saveTaskEdit_without_user (row : TaskItem.state) (p : Page.t W) :
  Js.truthy_opt (userId session) = false ->
  1 <= Js.length (Js.trim (TaskItem.editTitle row)) ->
  saveTaskEdit session task (row, p)
  = (Returned tt,
     (TaskItem.setIsLoading false (TaskItem.setIsEditing false row), p)).
Proof.
  intros Hu Hlen. apply Js_truthy_length in Hlen.
  unfold saveTaskEdit, TaskItem.handleSaveEdit. simpl. rewrite Hlen. simpl.
  unfold bind, try_finally, parent, child. simpl.
  unfold handleUpdateTask. rewrite (requireUserId_absent session _ p Hu).
  reflexivity.
Qed.

End Row.

(** X21: a task whose title and description came out of the create form
    (a trimmed, non-empty title; a trimmed, non-empty description or null),
    opened in the editor and saved without a change, is sent to [onUpdate]
    with exactly its own title and description. *)
Theorem TaskItem_unedited_save_resends_task
    {P : Type} (task : Task)
    (onUpdate : TaskId -> JsString -> option JsString -> M P unit)
    (typedTitle typedDescription : JsString) (row : TaskItem.state) (p : P) :
  Task.title task = Js.trim typedTitle ->
  1 <= Js.length (Task.title task) ->
  Task.description task = Js.or_null (Js.trim typedDescription) ->
  let opened := TaskItem.handleStartEdit task row in
  snd (snd (TaskItem.handleSaveEdit task onUpdate opened (opened, p)))
  = snd (onUpdate (Task.id task) (Task.title task) (Task.description task) p).
Proof.
  intros Htitle Hlen Hdesc opened.
  assert (Ht : Js.trim (TaskItem.editTitle opened) = Task.title task).
  { unfold opened. simpl. rewrite Htitle. apply trim_idempotent. }
  assert (Hd : Js.or_null (Js.trim (TaskItem.editDescription opened))
               = Task.description task).
  { unfold opened. simpl. unfold TaskItem.descriptionOrEmpty. rewrite Hdesc.
    unfold Js.or_null.
    destruct (Js.truthy (Js.trim typedDescription)) eqn:E.
    - rewrite trim_idempotent, E. reflexivity.
    - reflexivity. }
  rewrite (@TaskItem_handleSaveEdit_calls_onUpdate P task onUpdate opened p).
  - rewrite Ht, Hd. reflexivity.
  - rewrite Ht. exact Hlen.
Qed.

(** With the network gone Alice's save fails and her row is unmounted;
    with the server there the row stays and leaves edit mode. *)
Lemma saveTaskEdit_outcome_witness :
  let row := TaskItem.handleStartEdit Sample.milk (TaskItem.initial Sample.milk) in
  (fst (@saveTaskEdit unit Offline.api Sample.session Sample.milk
          (row, Offline.page)) = Threw Offline.networkError /\
   rowAfter Sample.milk
     (snd (@saveTaskEdit unit Offline.api Sample.session Sample.milk
             (row, Offline.page))) = None) /\
  rowAfter Sample.milk (snd (saveTaskEdit Sample.session Sample.milk
                               (row, Sample.page)))
  = Some (TaskItem.initial Sample.milk).
Proof.
  intros row. split.
  - destruct (@saveTaskEdit_outcome unit Offline.api Sample.session Sample.milk
                (User.id Sample.alice) row Offline.page eq_refl eq_refl
                ltac:(vm_compute; discriminate) eq_refl)
      as (Hout & Hrow & _).
    split; [exact Hout | exact Hrow].
  - apply (proj2 (@saveTaskEdit_outcome Backend.Server Backend.api
                    Sample.session Sample.milk (User.id Sample.alice) row
                    Sample.page eq_refl eq_refl
                    ltac:(vm_compute; discriminate) eq_refl)).
    reflexivity.
Defined.

Lemma saveTaskEdit_without_user_witness :
  let row := TaskItem.handleStartEdit Sample.milk (TaskItem.initial Sample.milk) in
  saveTaskEdit None Sample.milk (row, Sample.page)
  = (Returned tt, (TaskItem.initial Sample.milk, Sample.page)).
Proof.
  intros row.
  apply (@saveTaskEdit_without_user Backend.Server Backend.api None Sample.milk
           row Sample.page eq_refl).
  vm_compute. discriminate.
Defined.

Lemma TaskItem_unedited_save_witness :
  let opened := TaskItem.handleStartEdit Sample.milk
                  (TaskItem.initial Sample.milk) in
  snd (snd (TaskItem.handleSaveEdit Sample.milk
              (handleUpdateTask Sample.session) opened (opened, Sample.page)))
  = snd (handleUpdateTask Sample.session (Task.id Sample.milk)
           (Task.title Sample.milk) (Task.description Sample.milk) Sample.page).
Proof.
  intros opened.
  apply (@TaskItem_unedited_save_resends_task _ Sample.milk
           (handleUpdateTask Sample.session)
           (Js.lit "  Buy milk ") (Js.lit " ") (TaskItem.initial Sample.milk)
           Sample.page).
  - reflexivity.
  - vm_compute. discriminate.
  - reflexivity.
Defined.

(** ** What the task list renders *)

(** X25: the early returns of [TaskList] in order: while loading it renders
    the spinner whatever else holds; it renders the error box exactly when
    it is not loading and the error is a non-empty string, and then with
    that string, tasks or no tasks; and it renders rows exactly when it is
    not loading, no non-empty error is set and there is at least one task,
    and then all the tasks in their order. *)
Theorem TaskList_rendering
    (tasks : list Task) (isLoading : bool) (error : option JsString) :
  (isLoading = true -> TaskList tasks isLoading error = Spinner) /\
  (forall message : JsString,
     TaskList tasks isLoading error = ErrorBox message <->
     isLoading = false /\ error = Some message /\ message <> []) /\
  (forall shown : list Task,
     TaskList tasks isLoading error = Rows shown <->
     isLoading = false /\ Js.truthy_opt error = false /\
     tasks <> [] /\ shown = tasks).
Proof.
  unfold TaskList. split; [intros ->; reflexivity|]. split.
  - intros message. split.
    + destruct isLoading; [discriminate|].
      destruct error as [[|c m]|]; try (destruct tasks; discriminate).
      intros H. injection H as <-. repeat split. discriminate.
    + intros (-> & -> & Hne). destruct message; [contradiction | reflexivity].
  - intros shown. split.
    + destruct isLoading; [discriminate|].
      destruct error as [[|c m]|]; try discriminate;
        (destruct tasks; [discriminate|]);
        intros H; injection H as <-; repeat split; discriminate.
    + intros (-> & He & Hne & ->).
      destruct error as [[|c m]|]; try discriminate;
        (destruct tasks; [contradiction | reflexivity]).
Qed.

Lemma TaskList_rendering_witness :
  TaskList [Sample.milk] true None = Spinner /\
  TaskList [Sample.milk] false (Some (Js.lit "Failed to load tasks. Please try again."))
  = ErrorBox (Js.lit "Failed to load tasks. Please try again.") /\
  TaskList [Sample.milk] false (Some []) = Rows [Sample.milk].
Proof.
  split; [|split].
  - apply (proj1 (TaskList_rendering [Sample.milk] true None)). reflexivity.
  - apply (proj1 (proj2 (TaskList_rendering [Sample.milk] false
                           (Some (Js.lit "Failed to load tasks. Please try again.")))) _).
    repeat split. discriminate.
  - apply (proj2 (proj2 (TaskList_rendering [Sample.milk] false (Some []))) _).
    repeat split. discriminate.
Defined.

(** ** The authentication configuration, beyond the base URL order *)

(** X23: the resolved base URL is never the empty string, whatever the
    environment holds, so the issuer and the audience of the tokens are
    never empty either. *)
Theorem getBaseUrl_never_empty (env : AuthServer.Env.t) :
  Js.truthy (AuthServer.getBaseUrl env) = true /\
  forall j : AuthServer.JwtOptions,
    AuthServer.jwtOptions (AuthServer.auth env) = Some j ->
    Js.truthy (AuthServer.issuer j) = true /\
    Js.truthy (AuthServer.audience j) = true.
Proof.
  assert (H : Js.truthy (AuthServer.getBaseUrl env) = true).
  { unfold AuthServer.getBaseUrl.
    destruct (AuthServer.Env.NEXT_PUBLIC_APP_URL env) as [[|c url]|];
      try reflexivity;
      (destruct (AuthServer.Env.VERCEL_URL env) as [[|c' host]|]; reflexivity). }
  split; [exact H|].
  intros j Hj. simpl in Hj. injection Hj as <-. simpl. split; exact H.
Qed.

Lemma getBaseUrl_never_empty_witness :
  let env := AuthServer.Env.mk (Some []) (Some []) None None None in
  Js.truthy (AuthServer.getBaseUrl env) = true /\
  Js.truthy (AuthServer.issuer
               (AuthServer.mkJwtOptions (Js.lit "7d") (AuthServer.getBaseUrl env)
                                        (AuthServer.getBaseUrl env))) = true.
Proof.
  intros env.
  destruct (getBaseUrl_never_empty env) as [H Hj].
  split; [exact H|].
  apply (proj1 (Hj _ eq_refl)).
Defined.

(** X24: whatever the environment holds, no exact trusted origin is the
    empty string (the API origin falls back to [http://localhost:8000] when
    [NEXT_PUBLIC_API_URL] is unset or empty); and in an environment where
    neither [NEXT_PUBLIC_APP_URL] nor [VERCEL_URL] is set, the base URL that
    issues the tokens is itself one of the trusted origins. *)
Theorem trustedOrigins_sound (env : AuthServer.Env.t) :
  (forall origin : JsString,
     In (AuthServer.Exact origin) (AuthServer.trustedOrigins (AuthServer.auth env)) ->
     Js.truthy origin = true) /\
  (Js.truthy_opt (AuthServer.Env.NEXT_PUBLIC_APP_URL env) = false ->
   Js.truthy_opt (AuthServer.Env.VERCEL_URL env) = false ->
   In (AuthServer.Exact (AuthServer.getBaseUrl env))
      (AuthServer.trustedOrigins (AuthServer.auth env))).
Proof.
  split.
  - intros origin. simpl.
    intros [H | [H | [H | [H | [H | []]]]]]; try discriminate;
      injection H as <-; try reflexivity.
    apply Js_or_else_truthy. reflexivity.
  - intros Happ Hhost.
    assert (Hbase : AuthServer.getBaseUrl env = Js.lit "http://localhost:3000").
    { unfold AuthServer.getBaseUrl.
      destruct (AuthServer.Env.NEXT_PUBLIC_APP_URL env) as [[|c url]|];
        try discriminate;
        (destruct (AuthServer.Env.VERCEL_URL env) as [[|c' host]|];
         try discriminate; reflexivity). }
    rewrite Hbase. simpl. right. left. reflexivity.
Qed.

Lemma trustedOrigins_sound_witness :
  let env := AuthServer.Env.mk None None None None (Some []) in
  Js.truthy (Js.lit "http://localhost:8000") = true /\
  In (AuthServer.Exact (AuthServer.getBaseUrl env))
     (AuthServer.trustedOrigins (AuthServer.auth env)).
Proof.
  intros env. destruct (trustedOrigins_sound env) as [Hexact Hbase]. split.
  - apply (Hexact (Js.lit "http://localhost:8000")). left. reflexivity.
  - apply Hbase; reflexivity.
Defined.
